(** * Antu logistics backend: tracking and dispatch services

    A shallow embedding of the service layer of the backend
    ([app/services/shipments_service.py], [tracking_service.py],
    [driver_service.py], [vehicle_service.py]) and the properties of its
    tracking and dispatch engine.

    Conventions of the embedding.
    - Python [float] and [Decimal] quantities are exact rationals ([Q]);
      [round] and [Decimal.quantize] are written out on rationals.
    - A [datetime] is a count of microseconds ([Z]), its resolution.
    - The SQLAlchemy session is an explicit record of tables ([Session]); a
      table is the list of its rows in the order a query enumerates them.
      [add], [commit] and [refresh] are taken to succeed.
    - The PostGIS scalar function [ST_Distance] is an interface ([PostGIS]);
      the session handle through which it is evaluated is left implicit.
    - A row carries the columns of its class in [app/models] that the services
      read or write, and no other attribute.
    - Python settles at run time whether an object has an attribute, whether
      a constructor accepts a keyword and whether a call supplies the
      parameters of a function. The embedding settles the same questions
      against what the classes of [app/models] and the signatures of the
      services declare, and raises [AttributeError] or [TypeError] where
      Python does.
    - Identifiers are UUID objects (always truthy). *)

From Stdlib Require Import ZArith QArith Qround Qabs List Sorted Bool String.
From Stdlib Require Import DecimalString.
From Stdlib Require Import Lia Lqa.
Import ListNotations.

Local Open Scope Q_scope.

(** ** Numbers *)

Module Num.

Definition Qltb (a b : Q) : bool := negb (Qle_bool b a).
Definition Qgtb (a b : Q) : bool := Qltb b a.
Definition Qgeb (a b : Q) : bool := Qle_bool b a.

(** [10 ** n] *)
Definition pow10 (n : nat) : Z := Z.pow 10 (Z.of_nat n).

(** Round half to even, to an integer. *)
Definition round_half_even (s : Q) : Z :=
  let f := Qfloor s in
  let twice := (2 * (s - inject_Z f))%Q in
  if Qltb twice 1 then f
  else if Qltb 1 twice then (f + 1)%Z
  else if Z.even f then f else (f + 1)%Z.

(** Round half away from zero, to an integer ([ROUND_HALF_UP]). *)
Definition round_half_up (s : Q) : Z :=
  if Qle_bool 0 s then Qfloor (s + (1 # 2))
  else (- Qfloor ((- s) + (1 # 2)))%Z.

(** Python's [round(x, ndigits)]. *)
Definition round (x : Q) (ndigits : nat) : Q :=
  inject_Z (round_half_even (x * inject_Z (pow10 ndigits)))
    / inject_Z (pow10 ndigits).

(** [x.quantize(Decimal("0.01"), rounding=ROUND_HALF_UP)] *)
Definition quantize_cents_half_up (x : Q) : Q :=
  inject_Z (round_half_up (x * 100)) / 100.

Fixpoint sum (l : list Q) : Q :=
  match l with
  | [] => 0
  | x :: l' => x + sum l'
  end.

Definition Qmax (a b : Q) : Q := if Qltb a b then b else a.
Definition Qmin (a b : Q) : Q := if Qltb b a then b else a.

(** [max(l)] and [min(l)] on a non-empty list given as head and tail. *)
Definition max_of (x : Q) (l : list Q) : Q := fold_left Qmax l x.
Definition min_of (x : Q) (l : list Q) : Q := fold_left Qmin l x.

End Num.

(** ** Rows of the tables ([app/models]) *)

Definition UUID := N.
Definition datetime := Z.
Bind Scope N_scope with UUID.
Bind Scope Z_scope with datetime.

(** [timedelta.total_seconds()] of [b - a]. *)
Definition total_seconds (a b : datetime) : Q := inject_Z (b - a) / 1000000.

(** A geometry value: a point [Point(x, y)] or a line through points. *)
Inductive Geometry : Type :=
| Point (x y : Q)
| LineString (vertices : list (Q * Q)).

Definition geom_x (g : Geometry) : Q :=
  match g with Point x _ => x | LineString _ => 0 end.
Definition geom_y (g : Geometry) : Q :=
  match g with Point _ y => y | LineString _ => 0 end.

Inductive DriverStatus := AVAILABLE | ON_DUTY | OFF_DUTY.

Inductive ShipmentStatus :=
  CREATED | ASSIGNED | IN_TRANSIT | DELIVERED | DELAYED | CANCELLED.

Inductive VehicleStatus :=
  V_AVAILABLE | V_IN_USE | V_MAINTENANCE | V_INACTIVE.

Inductive VehicleType := MOTORCYCLE | VAN | TRUCK | PICKUP.

Record Driver := {
  d_id : UUID;
  d_vehicle_id : option UUID;
  d_status : DriverStatus;
  d_location : option Geometry;
  d_is_active : bool
}.

Record Vehicle := {
  v_id : UUID;
  v_vehicle_type : VehicleType;
  v_capacity_kg : Q;
  v_status : VehicleStatus;
  v_is_active : bool
}.

Record Shipment := {
  s_id : UUID;
  s_driver_id : option UUID;
  s_destination : Geometry;
  s_status : ShipmentStatus;
  s_estimated_distance_km : option Q
}.

Record TrackingPoint := {
  tp_id : UUID;
  tp_shipment_id : UUID;
  tp_location : Geometry;
  tp_speed_kmh : option Q;
  tp_recorded_at : datetime;
  tp_notes : option string
}.

(** The session: the four tables the services query. *)
Record Session := {
  drivers : list Driver;
  vehicles : list Vehicle;
  shipments : list Shipment;
  tracking_points : list TrackingPoint
}.

Definition DriverStatus_eqb (a b : DriverStatus) : bool :=
  match a, b with
  | AVAILABLE, AVAILABLE | ON_DUTY, ON_DUTY | OFF_DUTY, OFF_DUTY => true
  | _, _ => false
  end.

Definition ShipmentStatus_eqb (a b : ShipmentStatus) : bool :=
  match a, b with
  | CREATED, CREATED | ASSIGNED, ASSIGNED | IN_TRANSIT, IN_TRANSIT
  | DELIVERED, DELIVERED | DELAYED, DELAYED | CANCELLED, CANCELLED => true
  | _, _ => false
  end.

Definition VehicleStatus_eqb (a b : VehicleStatus) : bool :=
  match a, b with
  | V_AVAILABLE, V_AVAILABLE | V_IN_USE, V_IN_USE
  | V_MAINTENANCE, V_MAINTENANCE | V_INACTIVE, V_INACTIVE => true
  | _, _ => false
  end.

Definition VehicleType_eqb (a b : VehicleType) : bool :=
  match a, b with
  | MOTORCYCLE, MOTORCYCLE | VAN, VAN | TRUCK, TRUCK | PICKUP, PICKUP => true
  | _, _ => false
  end.

(** [query.filter(...).first()] *)
Definition first {A : Type} (f : A -> bool) (rows : list A) : option A :=
  find f rows.

(** ** The spatial functions of the database *)

Class PostGIS := {
  (** [ST_Distance(a, b)], in meters. *)
  ST_Distance : Geometry -> Geometry -> Q
}.

(** [ST_Length(line)], the database's length of a line. *)
Class PostGISLength := {
  ST_Length : Geometry -> Q
}.

(** ** Exceptions

    [TypeError] and [AttributeError] are subclasses of [Exception]: an
    [except Exception] clause catches all three. *)

Inductive exn :=
| Exception (msg : string)
| TypeError (msg : string)
| AttributeError (msg : string).

Inductive outcome (A : Type) :=
| Return (a : A)
| Raise (e : exn).
Arguments Return {A} a.
Arguments Raise {A} e.

(** A computation that reads nothing but its arguments returns or raises. *)
Definition and_then {A B} (m : outcome A) (k : A -> outcome B) : outcome B :=
  match m with
  | Return a => k a
  | Raise e => Raise e
  end.

Declare Scope outcome_scope.
Delimit Scope outcome_scope with outcome.
Notation "x <- m ;; k" := (and_then m (fun x => k))
  (at level 61, m at next level, right associativity) : outcome_scope.

(** [for a in l: state = body(state, a)], stopped by the first exception. *)
Definition for_each {A S : Type} (l : list A) (body : S -> A -> outcome S)
    (init : S) : outcome S :=
  fold_left (fun acc a => (state <- acc ;; body state a)%outcome) l
    (Return init).

(** ** The session monad

    A service call runs against the session and either returns or raises; the
    session it leaves behind is kept in both cases, since every step commits
    its own writes. *)

Definition M (A : Type) : Type := Session -> outcome A * Session.

Definition ret {A} (a : A) : M A := fun db => (Return a, db).
Definition raise {A} (e : exn) : M A := fun db => (Raise e, db).
Definition bind {A B} (m : M A) (k : A -> M B) : M B :=
  fun db =>
    match m db with
    | (Return a, db') => k a db'
    | (Raise e, db') => (Raise e, db')
    end.
Definition get : M Session := fun db => (Return db, db).
Definition put (db' : Session) : M unit := fun _ => (Return tt, db').

(** A computation that does not touch the session. *)
Definition lift {A} (m : outcome A) : M A := fun db => (m, db).

(** [try: body except Exception: handler]; the handler runs in the session
    the body left behind. *)
Definition try_except {A} (body : M A) (handler : exn -> M A) : M A :=
  fun db =>
    match body db with
    | (Return a, db') => (Return a, db')
    | (Raise e, db') => handler e db'
    end.

(** [db.rollback()]: the changes not yet committed are dropped. A write of
    the services is committed by the step that makes it, so the tables hold
    no uncommitted change when a rollback runs. *)
Definition rollback : M unit := ret tt.

Declare Scope session_scope.
Delimit Scope session_scope with session.
Notation "x <- m ;; k" := (bind m (fun x => k))
  (at level 61, m at next level, right associativity) : session_scope.
Notation "m ;;; k" := (bind m (fun _ => k))
  (at level 61, right associativity) : session_scope.

(** ** Python objects *)

(** The values the services pass around without a static type. *)
Inductive value :=
| VNone
| VNumber (q : Q)
| VUUID (u : UUID)
| VGeometry (g : Geometry)
| VDatetime (t : datetime)
| VString (s : string)
| VSession
| VObject.

(** [v if o is not None else None] *)
Definition option_value {A : Type} (f : A -> value) (o : option A) : value :=
  match o with
  | Some a => f a
  | None => VNone
  end.

(** Truth value of an object: [None], [0] and the empty string are false. *)
Definition truth (v : value) : bool :=
  match v with
  | VNone => false
  | VNumber q => negb (Qeq_bool q 0)
  | VString EmptyString => false
  | _ => true
  end.

(** The class declares the attribute. *)
Definition declares (attributes : list string) (name : string) : bool :=
  existsb (String.eqb name) attributes.

(** ['name'], as Python prints a name in a message. *)
Definition quoted (name : string) : string := ("'" ++ name ++ "'")%string.

(** A count, in decimal. *)
Definition decimal (n : nat) : string :=
  NilEmpty.string_of_uint (Nat.to_uint n).

(** [a, b, and c], as Python lists the parameters left without argument. *)
Fixpoint enumerate (names : list string) : string :=
  match names with
  | [] => ""
  | a :: rest =>
      match rest with
      | [] => a
      | [b] => a ++ " and " ++ b
      | [b; c] => a ++ ", " ++ b ++ ", and " ++ c
      | _ => a ++ ", " ++ enumerate rest
      end
  end%string.

(** [obj.name] on an instance of a mapped class: the value of the attribute
    when the class declares it, else [AttributeError]. *)
Definition getattr {R : Type} (cls : string) (attributes : list string)
    (read : R -> string -> value) (obj : R) (name : string) : outcome value :=
  if declares attributes name then Return (read obj name)
  else Raise (AttributeError
                (quoted cls ++ " object has no attribute " ++ quoted name)%string).

(** The constructor of a mapped class, [Cls(k1=v1, ...)]: the declarative
    base of SQLAlchemy sets each keyword as an attribute and raises
    [TypeError] on a keyword the class does not declare. *)
Definition accepts_keywords (cls : string) (attributes : list string)
    (kwargs : list (string * value)) : outcome unit :=
  match find (fun kw => negb (declares attributes (fst kw))) kwargs with
  | Some kw =>
      Raise (TypeError
               (quoted (fst kw) ++ " is an invalid keyword argument for "
                ++ cls)%string)
  | None => Return tt
  end.

(** A call [fn(a1, a2, ...)] of a function whose parameters have no default:
    the arguments are bound to the parameters in order; too many, or a
    parameter left without argument, is a [TypeError] and the body does not
    run. *)
Definition bind_positional (fn : string) (parameters : list string)
    (args : list value) : outcome (list (string * value)) :=
  if (List.length parameters <? List.length args)%nat
  then Raise (TypeError
                (fn ++ "() takes " ++ decimal (List.length parameters)
                 ++ " positional arguments but "
                 ++ decimal (List.length args) ++ " were given")%string)
  else
    match skipn (List.length args) parameters with
    | [] => Return (combine parameters args)
    | missing =>
        Raise (TypeError
                 (fn ++ "() missing " ++ decimal (List.length missing)
                  ++ " required positional argument"
                  ++ (if (List.length missing =? 1)%nat then "" else "s")
                  ++ ": " ++ enumerate (map quoted missing))%string)
    end.

(** The attributes of [TrackingPoint] ([app/models/tracking_model.py]): its
    columns and its relationship. The names the declarative base adds to
    every class ([metadata], [registry] and names that open with an
    underscore) are none of those the services use. *)
Definition TrackingPoint_attributes : list string :=
  ["id"; "shipment_id"; "location"; "speed_kmh"; "recorded_at"; "notes";
   "shipment"]%string.

Definition TrackingPoint_read (p : TrackingPoint) (name : string) : value :=
  if String.eqb name "id" then VUUID (tp_id p)
  else if String.eqb name "shipment_id" then VUUID (tp_shipment_id p)
  else if String.eqb name "location" then VGeometry (tp_location p)
  else if String.eqb name "speed_kmh" then option_value VNumber (tp_speed_kmh p)
  else if String.eqb name "recorded_at" then VDatetime (tp_recorded_at p)
  else if String.eqb name "notes" then option_value VString (tp_notes p)
  else VObject.

(** The attributes of [Shipment] ([app/models/shipment_model.py]). *)
Definition Shipment_attributes : list string :=
  ["id"; "tracking_number"; "shipper_id"; "driver_id"; "origin";
   "destination"; "package_description"; "weight_kg"; "volume_m3"; "status";
   "estimated_distance_km"; "estimated_cost"; "actual_cost"; "created_at";
   "assigned_at"; "picked_up_at"; "delivered_at"; "updated_at";
   "recipient_name"; "recipient_phone"; "customer"; "driver";
   "tracking_points"]%string.

Definition Shipment_read (s : Shipment) (name : string) : value :=
  if String.eqb name "id" then VUUID (s_id s)
  else if String.eqb name "driver_id" then option_value VUUID (s_driver_id s)
  else if String.eqb name "destination" then VGeometry (s_destination s)
  else if String.eqb name "estimated_distance_km"
  then option_value VNumber (s_estimated_distance_km s)
  else VObject.

(** What an element of geoalchemy2, the value of a [Geography] attribute of
    a row, answers to an attribute such as [.x] or [.y]. The library is not
    part of the repository and its releases differ: the recent ones raise
    [AttributeError] for a name that does not open with [ST_], the older
    ones answer with an SQL function object. *)
Class GeoAlchemy := {
  element_getattr : Geometry -> string -> outcome value
}.

(** ** [app/services/shipments_service.py] *)

Module ShipmentsService.
Section WithPostGIS.
Context `{PostGIS}.

(** The body of the function on its four coordinates. The session [db] that
    opens the source signature serves only to evaluate [ST_Distance] and is
    left implicit here; how a call binds its arguments to the five
    parameters is [calculate_distance_km_call] below. The scalar of
    [ST_Distance] over two point literals is never NULL, so the
    [ValueError] guard of the source does not fire and is left out. *)
Definition calculate_distance_km
    (origin_lat origin_lng dest_lat dest_lng : Q) : Q :=
  let origin := Point origin_lng origin_lat in
  let destination := Point dest_lng dest_lat in
  let distance_meters := ST_Distance origin destination in
  let distance_km := distance_meters / 1000 in
  Num.quantize_cents_half_up distance_km.

(** [def calculate_distance_km(db, origin_lat, origin_lng, dest_lat,
    dest_lng)] *)
Definition calculate_distance_km_parameters : list string :=
  ["db"; "origin_lat"; "origin_lng"; "dest_lat"; "dest_lng"]%string.

(** A call [calculate_distance_km(a1, a2, ...)]. With five arguments the body
    runs: it needs a session to query, and the database needs numbers in the
    two point literals. *)
Definition calculate_distance_km_call (args : list value) : outcome Q :=
  (bound <- bind_positional "calculate_distance_km"
              calculate_distance_km_parameters args ;;
   match map snd bound with
   | [VSession; VNumber origin_lat; VNumber origin_lng;
      VNumber dest_lat; VNumber dest_lng] =>
       Return (calculate_distance_km origin_lat origin_lng dest_lat dest_lng)
   | VSession :: _ => Raise (Exception "the database rejects the point literal")
   | _ => Raise (AttributeError "object has no attribute 'query'")
   end)%outcome.

End WithPostGIS.

Definition validate_coordinates (latitude longitude : Q) : bool :=
  let lat := latitude in
  let lng := longitude in
  if (Qle_bool (-90) lat && Qle_bool lat 90)
     && (Qle_bool (-180) lng && Qle_bool lng 180)
  then true
  else false.

End ShipmentsService.

(** ** [app/services/tracking_service.py] *)

Module TrackingService.
Import ShipmentsService.

(** [from_shape(Point(longitude, latitude), srid=4326)] *)
Definition from_shape_point (longitude latitude : Q) : Geometry :=
  Point longitude latitude.

(** [db.add(tracking); db.commit(); db.refresh(tracking)] *)
Definition add_tracking_point (tracking : TrackingPoint) : M unit :=
  (db <- get ;;
   put {| drivers := drivers db;
          vehicles := vehicles db;
          shipments := shipments db;
          tracking_points := tracking_points db ++ [tracking] |})%session.

(** [fresh] and [now] are the column defaults [uuid.uuid4] and
    [datetime.utcnow] taken when the row is created. The constructor is
    called with the keywords [driver_id], [shipment_id], [location] and
    [speed_kph]; of the attributes it would set, the row has [shipment_id]
    and [location]. *)
Definition save_tracking_point (fresh : UUID) (now : datetime)
    (driver_id shipment_id : UUID) (latitude longitude : Q)
    (speed_kph : option Q) : M TrackingPoint :=
  try_except
    (let point := from_shape_point longitude latitude in
     lift (accepts_keywords "TrackingPoint" TrackingPoint_attributes
             [("driver_id", VUUID driver_id);
              ("shipment_id", VUUID shipment_id);
              ("location", VGeometry point);
              ("speed_kph", option_value VNumber speed_kph)]%string) ;;;
     let tracking := {| tp_id := fresh;
                        tp_shipment_id := shipment_id;
                        tp_location := point;
                        tp_speed_kmh := None;
                        tp_recorded_at := now;
                        tp_notes := None |} in
     add_tracking_point tracking ;;;
     ret tracking)%session
    (fun _ =>
       rollback ;;;
       raise (Exception "Error saving tracking point"))%session.

(** The row returned by [first()] is the one whose attribute is assigned. *)
Fixpoint assign_location (driver_id : UUID) (point : Geometry)
    (rows : list Driver) : list Driver :=
  match rows with
  | [] => []
  | d :: rows' =>
      if N.eqb (d_id d) driver_id
      then {| d_id := d_id d;
              d_vehicle_id := d_vehicle_id d;
              d_status := d_status d;
              d_location := Some point;
              d_is_active := d_is_active d |} :: rows'
      else d :: assign_location driver_id point rows'
  end.

Definition update_driver_current_location
    (driver_id : UUID) (latitude longitude : Q) : M unit :=
  (db <- get ;;
   match first (fun d => N.eqb (d_id d) driver_id) (drivers db) with
   | None => raise (Exception "Driver not found")
   | Some _ =>
       let point := from_shape_point longitude latitude in
       put {| drivers := assign_location driver_id point (drivers db);
              vehicles := vehicles db;
              shipments := shipments db;
              tracking_points := tracking_points db |}
   end)%session.

Record Deviation := {
  distance_from_route_meters : Q;
  is_deviated : bool
}.

Record TrackResult := {
  tracking_id : UUID;
  tr_distance_from_route_meters : Q;
  tr_is_deviated : bool
}.

Section WithPostGIS.
Context `{PostGIS}.

(** [shipment.route] is read in the guard and again in the query. *)
Definition calculate_route_deviation
    (shipment_id : UUID) (latitude longitude : Q)
    (threshold_meters : Q) : M Deviation :=
  (db <- get ;;
   match first (fun s => N.eqb (s_id s) shipment_id) (shipments db) with
   | None => raise (Exception "Shipment route not found")
   | Some shipment =>
       route <- lift (getattr "Shipment" Shipment_attributes Shipment_read
                        shipment "route") ;;
       if negb (truth route)
       then raise (Exception "Shipment route not found")
       else
         let point := from_shape_point longitude latitude in
         route <- lift (getattr "Shipment" Shipment_attributes Shipment_read
                          shipment "route") ;;
         match route with
         | VGeometry route =>
             let distance_m := ST_Distance route point in
             ret {| distance_from_route_meters := Num.round distance_m 2;
                    is_deviated := Num.Qgtb distance_m threshold_meters |}
         | _ => raise (Exception "the database rejects the route")
         end
   end)%session.

Definition track_driver (fresh : UUID) (now : datetime)
    (driver_id shipment_id : UUID) (latitude longitude : Q)
    (speed_kph : option Q) : M TrackResult :=
  (tracking <- save_tracking_point fresh now driver_id shipment_id
                 latitude longitude speed_kph ;;
   update_driver_current_location driver_id latitude longitude ;;;
   deviation <- calculate_route_deviation shipment_id latitude longitude 100 ;;
   ret {| tracking_id := tp_id tracking;
          tr_distance_from_route_meters := distance_from_route_meters deviation;
          tr_is_deviated := is_deviated deviation |})%session.

(** The aggregate [ST_MakeLine] over the selected rows: NULL over no row,
    else the line through the locations in the order the rows are read. *)
Definition ST_MakeLine (locations : list Geometry) : option Geometry :=
  match locations with
  | [] => None
  | _ => Some (LineString (map (fun g => (geom_x g, geom_y g)) locations))
  end.

(** [ST_Length(ST_MakeLine(TrackingPoint.location))] filtered on the
    shipment, with no [order_by] and no conversion of the unit;
    [ST_Length] of NULL is NULL, and [result or 0] turns it into 0. *)
Definition calculate_total_distance_traveled `{PostGISLength}
    (db : Session) (shipment_id : UUID) : Q :=
  let result :=
    option_map ST_Length
      (ST_MakeLine
         (map tp_location
            (filter (fun p => N.eqb (tp_shipment_id p) shipment_id)
               (tracking_points db)))) in
  Num.round (match result with Some r => r | None => 0 end) 2.

(** [.order_by(TrackingPoint.recorded_at.asc())]; rows with the same
    timestamp keep their row order. *)
Fixpoint insert_by_recorded_at (p : TrackingPoint)
    (sorted : list TrackingPoint) : list TrackingPoint :=
  match sorted with
  | [] => [p]
  | q :: rest =>
      if (tp_recorded_at p <=? tp_recorded_at q)%Z
      then p :: sorted
      else q :: insert_by_recorded_at p rest
  end.

Definition order_by_recorded_at (rows : list TrackingPoint)
    : list TrackingPoint :=
  fold_right insert_by_recorded_at [] rows.

(** [db.query(TrackingPoint).filter(TrackingPoint.shipment_id == shipment_id)
       .order_by(TrackingPoint.recorded_at.asc()).all()] *)
Definition query_tracking_points (db : Session) (shipment_id : UUID)
    : list TrackingPoint :=
  order_by_recorded_at
    (filter (fun p => N.eqb (tp_shipment_id p) shipment_id)
       (tracking_points db)).

(** [for i in range(1, len(tracking_points))] with
    [prev_point = tracking_points[i-1]] and [curr_point = tracking_points[i]];
    the state is the list the body appends to. *)
Definition for_consecutive {A : Type} (tracking_points : list TrackingPoint)
    (body : TrackingPoint -> TrackingPoint -> A -> outcome A) (init : A)
    : outcome A :=
  for_each (seq 1 (List.length tracking_points - 1))
    (fun acc i =>
       match nth_error tracking_points (i - 1), nth_error tracking_points i with
       | Some prev_point, Some curr_point => body prev_point curr_point acc
       | _, _ => Return acc
       end)
    init.

(** Hours between two points: [total_seconds() / 3600]. *)
Definition hours_between (prev_point curr_point : TrackingPoint) : Q :=
  total_seconds (tp_recorded_at prev_point) (tp_recorded_at curr_point) / 3600.

(** Minutes between two points: [total_seconds() / 60]. *)
Definition minutes_between (prev_point curr_point : TrackingPoint) : Q :=
  total_seconds (tp_recorded_at prev_point) (tp_recorded_at curr_point) / 60.

(** [point.name] on a tracking point. *)
Definition point_attr (point : TrackingPoint) (name : string) : outcome value :=
  getattr "TrackingPoint" TrackingPoint_attributes TrackingPoint_read
    point name.

(** The distance the loops ask for a pair of points:
    [calculate_distance_km(prev_point.x, prev_point.y,
       curr_point.x, curr_point.y)], the arguments evaluated left to right
    before the call. *)
Definition pair_distance (prev_point curr_point : TrackingPoint) : outcome Q :=
  (prev_x <- point_attr prev_point "x" ;;
   prev_y <- point_attr prev_point "y" ;;
   curr_x <- point_attr curr_point "x" ;;
   curr_y <- point_attr curr_point "y" ;;
   calculate_distance_km_call [prev_x; prev_y; curr_x; curr_y])%outcome.

(** A key missing from the returned dict is [None]. *)
Record SpeedInfo := {
  average_speed_kmh : Q;
  max_speed_kmh : Q;
  min_speed_kmh : option Q;
  si_message : option string;
  calculated_from_points : option nat;
  recorded_speeds_available : option nat
}.

(** Truth value of an optional number: [None] and [0] are false. *)
Definition truthy (v : option Q) : bool :=
  match v with
  | Some q => negb (Qeq_bool q 0)
  | None => false
  end.

Definition speeds_of (tracking_points : list TrackingPoint)
    : outcome (list Q) :=
  for_consecutive tracking_points
    (fun prev_point curr_point speeds =>
       (distance <- pair_distance prev_point curr_point ;;
        let time_diff := hours_between prev_point curr_point in
        if Num.Qgtb time_diff 0
        then Return (speeds ++ [distance / time_diff])
        else Return speeds)%outcome)
    [].

Definition calculate_average_speed (shipment_id : UUID) (db : Session)
    : outcome SpeedInfo :=
  let tracking_points := query_tracking_points db shipment_id in
  if (List.length tracking_points <? 2)%nat then
    Return
      {| average_speed_kmh := 0;
         max_speed_kmh := 0;
         min_speed_kmh := None;
         si_message := Some "Insufficient tracking data"%string;
         calculated_from_points := None;
         recorded_speeds_available := None |}
  else
    (speeds <- speeds_of tracking_points ;;
     match speeds with
     | [] =>
         Return
           {| average_speed_kmh := 0;
              max_speed_kmh := 0;
              min_speed_kmh := None;
              si_message := Some "Could not calculate speed"%string;
              calculated_from_points := None;
              recorded_speeds_available := None |}
     | s :: rest =>
         let recorded_speeds :=
           filter truthy (map tp_speed_kmh tracking_points) in
         Return
           {| average_speed_kmh :=
                Num.round
                  (Num.sum speeds / inject_Z (Z.of_nat (List.length speeds))) 2;
              max_speed_kmh := Num.round (Num.max_of s rest) 2;
              min_speed_kmh := Some (Num.round (Num.min_of s rest) 2);
              si_message := None;
              calculated_from_points := Some (List.length speeds);
              recorded_speeds_available := Some (List.length recorded_speeds) |}
     end)%outcome.

(** An entry of the returned list; ["latitude"] and ["longitude"] hold what
    [prev_point.x] and [prev_point.y] evaluate to. *)
Record Stop := {
  stop_latitude : value;
  stop_longitude : value;
  start_time : datetime;
  end_time : datetime;
  duration_minutes : Q;
  stop_notes : string
}.

(** [notes or "Unspecified stop"] *)
Definition notes_or_default (notes : option string) : string :=
  match notes with
  | Some EmptyString | None => "Unspecified stop"%string
  | Some s => s
  end.

Definition detect_delivery_stops (shipment_id : UUID) (db : Session)
    (min_stop_minutes : Z) : outcome (list Stop) :=
  let tracking_points := query_tracking_points db shipment_id in
  if (List.length tracking_points <? 2)%nat then Return []
  else
    for_consecutive tracking_points
      (fun prev_point curr_point stops =>
         (distance <- pair_distance prev_point curr_point ;;
          let time_diff_minutes := minutes_between prev_point curr_point in
          if Num.Qltb distance (1 # 10)
             && Num.Qgeb time_diff_minutes (inject_Z min_stop_minutes)
          then
            latitude <- point_attr prev_point "x" ;;
            longitude <- point_attr prev_point "y" ;;
            Return
              (stops
               ++ [{| stop_latitude := latitude;
                      stop_longitude := longitude;
                      start_time := tp_recorded_at prev_point;
                      end_time := tp_recorded_at curr_point;
                      duration_minutes :=
                        Num.round (minutes_between prev_point curr_point) 1;
                      stop_notes := notes_or_default (tp_notes prev_point) |}])
          else Return stops)%outcome)
      [].

Record EtaInfo := {
  remaining_distance_km : Q;
  current_speed_kmh : Q;
  estimated_time_minutes : Q;
  eta : datetime
}.

(** [timedelta(minutes=m)], in microseconds. *)
Definition timedelta_minutes (m : Q) : Z :=
  Num.round_half_even (m * 60000000).

(** An attribute of a mapped class: the column the model declares, until an
    assignment to the class puts a plain value in its place. *)
Inductive class_attribute :=
| Column
| Assigned (v : Geometry).

(** The two class attributes [calculate_estimated_delivery_time] assigns. *)
Record Classes := {
  Driver_location : class_attribute;
  Shipment_destination : class_attribute
}.

(** [now] is [datetime.utcnow()]. The function opens with assignments to the
    class attributes [Driver.location] and [Shipment.destination], then asks
    [calculate_distance_km] for the distance with its four coordinates as
    positional arguments. The renderings [eta.isoformat()] and
    [eta.strftime(...)] are both [eta]. *)
Definition calculate_estimated_delivery_time (now : datetime)
    (current_location_lat current_location_lng : Q)
    (destination_lat destination_lng : Q)
    (current_speed_kmh : option Q) (classes : Classes)
    : outcome EtaInfo * Classes :=
  let classes :=
    {| Driver_location :=
         Assigned (from_shape_point current_location_lng current_location_lat);
       Shipment_destination :=
         Assigned (from_shape_point destination_lng destination_lat) |} in
  ((remaining_distance <-
      calculate_distance_km_call
        [VNumber current_location_lat; VNumber current_location_lng;
         VNumber destination_lat; VNumber destination_lng] ;;
    let speed :=
      match current_speed_kmh with
      | Some v => if truthy (Some v) && Num.Qgtb v 0 then v else 40
      | None => 40
      end in
    let time_hours := remaining_distance / speed in
    let time_minutes := time_hours * 60 in
    let eta := (now + timedelta_minutes time_minutes)%Z in
    Return
      {| remaining_distance_km := Num.round remaining_distance 2;
         current_speed_kmh := Num.round speed 2;
         estimated_time_minutes := Num.round time_minutes 1;
         eta := eta |})%outcome,
   classes).

(** An entry of [anomalies]: its ["type"], ["point_id"] and, for an
    impossible speed, ["speed_kmh"]. *)
Inductive Anomaly :=
| time_sequence (point_id : UUID)
| impossible_speed (point_id : UUID) (speed_kmh : Q).

(** The ["message"] of the validation result. *)
Inductive ValidationMessage :=
| NotEnoughData
| ValidationComplete
| FoundAnomalies (n : nat).

Record Validation := {
  valid : bool;
  anomalies : list Anomaly;
  total_points_checked : option nat;
  v_message : ValidationMessage
}.

Definition anomalies_of (tracking_points : list TrackingPoint)
    : outcome (list Anomaly) :=
  for_consecutive tracking_points
    (fun prev_point curr_point anomalies =>
       let anomalies :=
         if (tp_recorded_at curr_point <=? tp_recorded_at prev_point)%Z
         then anomalies ++ [time_sequence (tp_id curr_point)]
         else anomalies in
       (distance <- pair_distance prev_point curr_point ;;
        let time_diff_hours := hours_between prev_point curr_point in
        if Num.Qgtb time_diff_hours 0 then
          let speed := distance / time_diff_hours in
          if Num.Qgtb speed 150
          then Return (anomalies ++ [impossible_speed (tp_id curr_point)
                                       (Num.round speed 2)])
          else Return anomalies
        else Return anomalies)%outcome)
    [].

Definition validate_tracking_point_sequence (shipment_id : UUID)
    (db : Session) : outcome Validation :=
  let tracking_points := query_tracking_points db shipment_id in
  if (List.length tracking_points <? 2)%nat then
    Return
      {| valid := true;
         anomalies := [];
         total_points_checked := None;
         v_message := NotEnoughData |}
  else
    (anomalies <- anomalies_of tracking_points ;;
     Return
       {| valid := (List.length anomalies =? 0)%nat;
          anomalies := anomalies;
          total_points_checked := Some (List.length tracking_points);
          v_message := if (List.length anomalies =? 0)%nat
                       then ValidationComplete
                       else FoundAnomalies (List.length anomalies) |})%outcome.

End WithPostGIS.
End TrackingService.

(** ** [app/services/driver_service.py] *)

Module DriverService.
Import ShipmentsService.

Inductive WorkloadStatus := free | light | moderate | heavy.

Record Workload := {
  assigned_shipments : nat;
  in_transit_shipments : nat;
  total_active : nat;
  pending_distance_km : Q;
  workload_status : WorkloadStatus;
  can_accept_more : bool
}.

(** [Shipment.driver_id == driver_id] *)
Definition driven_by (driver_id : UUID) (s : Shipment) : bool :=
  match s_driver_id s with
  | Some d => N.eqb d driver_id
  | None => false
  end.

(** [x or 0] *)
Definition or_zero (v : option Q) : Q :=
  match v with Some q => q | None => 0 end.

Definition get_driver_active_workload (driver_id : UUID) (db : Session)
    : Workload :=
  let assigned :=
    List.length
      (filter (fun s => driven_by driver_id s
                        && ShipmentStatus_eqb (s_status s) ASSIGNED)
         (shipments db)) in
  let in_transit :=
    List.length
      (filter (fun s => driven_by driver_id s
                        && ShipmentStatus_eqb (s_status s) IN_TRANSIT)
         (shipments db)) in
  let total_active := (assigned + in_transit)%nat in
  let active_shipments :=
    filter (fun s => driven_by driver_id s
                     && (ShipmentStatus_eqb (s_status s) ASSIGNED
                         || ShipmentStatus_eqb (s_status s) IN_TRANSIT))
      (shipments db) in
  let pending_distance :=
    Num.sum (map (fun s => or_zero (s_estimated_distance_km s))
               active_shipments) in
  let workload_status :=
    if (total_active =? 0)%nat then free
    else if (total_active <=? 2)%nat then light
    else if (total_active <=? 5)%nat then moderate
    else heavy in
  {| assigned_shipments := assigned;
     in_transit_shipments := in_transit;
     total_active := total_active;
     pending_distance_km := Num.round pending_distance 2;
     workload_status := workload_status;
     can_accept_more := (total_active <? 5)%nat |}.

(** The ["reason"] of an availability result. *)
Inductive Reason :=
| DriverNotFound
| DriverIsNotActive
| DriverIsOffDuty
| MaximumWorkload (active : nat)
| VehicleCapacityInsufficient (capacity_kg shipment_kg : Q)
| NoVehicleAssigned
| DriverIsAvailable.

Record Availability := {
  available : bool;
  reason : Reason;
  current_workload : option nat;
  driver_status : option DriverStatus
}.

Definition unavailable (r : Reason) : Availability :=
  {| available := false;
     reason := r;
     current_workload := None;
     driver_status := None |}.

Definition check_driver_availability_for_shipment (driver_id : UUID)
    (shipment_weight_kg : Q) (db : Session) : Availability :=
  match first (fun d => N.eqb (d_id d) driver_id) (drivers db) with
  | None => unavailable DriverNotFound
  | Some driver =>
      if negb (d_is_active driver) then unavailable DriverIsNotActive
      else if DriverStatus_eqb (d_status driver) OFF_DUTY
      then unavailable DriverIsOffDuty
      else
        let workload := get_driver_active_workload driver_id db in
        if negb (can_accept_more workload)
        then unavailable (MaximumWorkload (total_active workload))
        else
          let ok :=
            {| available := true;
               reason := DriverIsAvailable;
               current_workload := Some (total_active workload);
               driver_status := Some (d_status driver) |} in
          match d_vehicle_id driver with
          | Some vehicle_id =>
              match first (fun v => N.eqb (v_id v) vehicle_id) (vehicles db) with
              | Some vehicle =>
                  if Num.Qltb (v_capacity_kg vehicle) shipment_weight_kg
                  then unavailable
                         (VehicleCapacityInsufficient (v_capacity_kg vehicle)
                            shipment_weight_kg)
                  else ok
              | None => ok
              end
          | None => unavailable NoVehicleAssigned
          end
  end.

(** [distance < nearest_distance] where [None] is [float('inf')]. *)
Definition below (distance : Q) (nearest_distance : option Q) : bool :=
  match nearest_distance with
  | None => true
  | Some n => Num.Qltb distance n
  end.

(** The drivers the query of [find_nearest_available_driver] selects. *)
Definition located_drivers (db : Session) : list Driver :=
  filter
    (fun d =>
       d_is_active d
       && (DriverStatus_eqb (d_status d) AVAILABLE
           || DriverStatus_eqb (d_status d) ON_DUTY)
       && match d_location d with Some _ => true | None => false end)
    (drivers db).

Section WithPostGIS.
Context `{PostGIS} `{GeoAlchemy}.

(** [calculate_distance_km(driver.location.y if driver.location else 0,
       driver.location.x if driver.location else 0, origin_lat, origin_lng)],
    the arguments evaluated left to right before the call. *)
Definition distance_to (origin_lat origin_lng : Q) (driver : Driver)
    : outcome Q :=
  (y <- match d_location driver with
        | Some location => element_getattr location "y"
        | None => Return (VNumber 0)
        end ;;
   x <- match d_location driver with
        | Some location => element_getattr location "x"
        | None => Return (VNumber 0)
        end ;;
   calculate_distance_km_call
     [y; x; VNumber origin_lat; VNumber origin_lng])%outcome.

(** One turn of the loop over the drivers, on the pair
    [(nearest_driver, nearest_distance)]. *)
Definition consider (origin_lat origin_lng shipment_weight_kg : Q)
    (db : Session) (max_distance_km : Q)
    (nearest : option Driver * option Q) (driver : Driver)
    : outcome (option Driver * option Q) :=
  let availability :=
    check_driver_availability_for_shipment (d_id driver)
      shipment_weight_kg db in
  if negb (available availability) then Return nearest
  else
    (distance <- distance_to origin_lat origin_lng driver ;;
     if below distance (snd nearest) && Qle_bool distance max_distance_km
     then Return (Some driver, Some distance)
     else Return nearest)%outcome.

Definition find_nearest_available_driver (origin_lat origin_lng : Q)
    (shipment_weight_kg : Q) (db : Session) (max_distance_km : Q)
    : outcome (option (Driver * Q)) :=
  let drivers := located_drivers db in
  (nearest <- for_each drivers
                (consider origin_lat origin_lng shipment_weight_kg db
                   max_distance_km)
                (None, None) ;;
   match nearest with
   | (Some nearest_driver, Some nearest_distance) =>
       Return (Some (nearest_driver, nearest_distance))
   | _ => Return None
   end)%outcome.

End WithPostGIS.
End DriverService.

(** ** [app/services/vehicle_service.py] *)

Module VehicleService.

Definition suitable (weight_kg : Q) (v : Vehicle) : bool :=
  VehicleStatus_eqb (v_status v) V_AVAILABLE
  && v_is_active v
  && Num.Qgeb (v_capacity_kg v) weight_kg.

(** [for vehicle in suitable_vehicles: if <class>: return vehicle], falling
    through to [return suitable_vehicles[0]]. *)
Definition first_of_class_or_first (of_class : Vehicle -> bool)
    (suitable_vehicles : list Vehicle) : option Vehicle :=
  match find of_class suitable_vehicles with
  | Some vehicle => Some vehicle
  | None => nth_error suitable_vehicles 0
  end.

Definition get_optimal_vehicle_for_shipment (weight_kg distance_km : Q)
    (db : Session) : option Vehicle :=
  let suitable_vehicles := filter (suitable weight_kg) (vehicles db) in
  match suitable_vehicles with
  | [] => None
  | _ =>
      if Num.Qltb distance_km 5 && Num.Qltb weight_kg 10 then
        first_of_class_or_first
          (fun v => VehicleType_eqb (v_vehicle_type v) MOTORCYCLE)
          suitable_vehicles
      else if Num.Qltb distance_km 20 && Num.Qltb weight_kg 500 then
        first_of_class_or_first
          (fun v => VehicleType_eqb (v_vehicle_type v) VAN
                    || VehicleType_eqb (v_vehicle_type v) PICKUP)
          suitable_vehicles
      else
        first_of_class_or_first
          (fun v => VehicleType_eqb (v_vehicle_type v) TRUCK)
          suitable_vehicles
  end.

End VehicleService.

(** ** More of [app/services/shipments_service.py] *)

Module ShipmentsPricing.

(** [c.lower()] on one character, and [s.lower()], over the ASCII letters. *)
Definition lower_ascii (c : Ascii.ascii) : Ascii.ascii :=
  let n := Ascii.nat_of_ascii c in
  if (65 <=? n)%nat && (n <=? 90)%nat
  then Ascii.ascii_of_nat (n + 32)
  else c.

Fixpoint lower (s : string) : string :=
  match s with
  | EmptyString => EmptyString
  | String c s' => String (lower_ascii c) (lower s')
  end.

(** [vehicle_multipliers.get(key, 1.0)] *)
Definition vehicle_multiplier (key : string) : Q :=
  if String.eqb key "motorcycle" then 1
  else if String.eqb key "van" then 13 # 10
  else if String.eqb key "truck" then 15 # 10
  else if String.eqb key "pickup" then 12 # 10
  else 1.

Definition distance_cost (estimated_distance_km : Q) : Q :=
  if Qle_bool estimated_distance_km 10 then estimated_distance_km * 50
  else if Qle_bool estimated_distance_km 50
  then (10 * 50) + ((estimated_distance_km - 10) * 40)
  else (10 * 50) + (40 * 40) + ((estimated_distance_km - 50) * 30).

Definition weight_surcharge (weight_kg : Q) : Q :=
  if Num.Qgtb weight_kg 20
  then let excess_weight := weight_kg - 20 in (excess_weight / 10) * 20
  else 0.

(** [subtotal *= multiplier] with a [Decimal] on the left and a [float] on
    the right: [decimal] refuses the mixed product. *)
Definition Decimal_times_float (subtotal multiplier : Q) : outcome Q :=
  Raise (TypeError
           "unsupported operand type(s) for *=: 'decimal.Decimal' and 'float'").

(** The two quantities are [Decimal], as the signature says, and so is the
    subtotal; the multipliers of the table are [float]. *)
Definition calculate_delivery_cost (estimated_distance_km weight_kg : Q)
    (vehicle_type : option string) : outcome Q :=
  let base_fare := 200 in
  let subtotal :=
    base_fare + distance_cost estimated_distance_km
    + weight_surcharge weight_kg in
  (subtotal <-
     match vehicle_type with
     | Some (String c s) =>
         let multiplier := vehicle_multiplier (lower (String c s)) in
         Decimal_times_float subtotal multiplier
     | Some EmptyString | None => Return subtotal
     end ;;
   Return (Num.round subtotal 0))%outcome.

Definition estimate_delivery_time (estimated_distance_km : Q) : Q :=
  let average_speed := 40 in
  let time_hours := estimated_distance_km / average_speed in
  let time_minutes := time_hours * 60 in
  let buffer_time := 30 in
  let total_time := time_minutes + buffer_time in
  Num.round total_time 0.

End ShipmentsPricing.

(** ** More of [app/services/tracking_service.py] *)

Module TrackingQueries.

(** Truth value of a number: [0] is false. *)
Definition truthy_number (v : Q) : bool := negb (Qeq_bool v 0).

(** [speed_kph] is the number the route requires; [None] is the returned
    [None]. *)
Definition calculate_eta (remaining_distance_meters speed_kph : Q)
    : option Q :=
  if negb (truthy_number speed_kph) || Qle_bool speed_kph 0 then None
  else
    let distance_km := remaining_distance_meters / 1000 in
    let hours := distance_km / speed_kph in
    let minutes := hours * 60 in
    Some (Num.round minutes 2).

(** [.order_by("distance")]; rows at the same distance keep their order. *)
Fixpoint insert_by_distance (row : UUID * Q) (sorted : list (UUID * Q))
    : list (UUID * Q) :=
  match sorted with
  | [] => [row]
  | r :: rest =>
      if Qle_bool (snd row) (snd r)
      then row :: sorted
      else r :: insert_by_distance row rest
  end.

Definition order_by_distance (rows : list (UUID * Q)) : list (UUID * Q) :=
  fold_right insert_by_distance [] rows.

Section WithPostGIS.
Context `{PostGIS}.

(** [ST_DWithin(a, b, r)]: the two geometries are within distance [r]. *)
Definition ST_DWithin (a b : Geometry) (r : Q) : bool :=
  Qle_bool (ST_Distance a b) r.

(** The rows [(Driver.id, distance)] of the drivers within the radius; a
    driver without a location has a NULL [ST_DWithin] and is left out. *)
Definition drivers_within (db : Session) (point : Geometry)
    (radius_meters : Q) : list (UUID * Q) :=
  flat_map
    (fun d =>
       match d_location d with
       | Some location =>
           if ST_DWithin location point radius_meters
           then [(d_id d, ST_Distance location point)]
           else []
       | None => []
       end)
    (drivers db).

Definition find_nearest_drivers (db : Session) (latitude longitude : Q)
    (radius_meters : Q) (limit : nat) : list (UUID * Q) :=
  let point := TrackingService.from_shape_point longitude latitude in
  firstn limit (order_by_distance (drivers_within db point radius_meters)).

End WithPostGIS.
End TrackingQueries.

(** ** More of [app/services/driver_service.py] *)

Module DriverReports.
Import DriverService.

Inductive EfficiencyStatus :=
| unknown | no_data | excellent | good | average | needs_improvement | poor.

(** A key missing from the returned dict is [None]. *)
Record Efficiency := {
  score : Q;
  eff_status : EfficiencyStatus;
  rating : option nat;
  total_deliveries : option nat;
  completed_deliveries : option nat;
  cancelled_deliveries : option nat;
  completion_rate : option Q;
  total_distance_km : option Q;
  average_distance_per_delivery : option Q
}.

Definition no_score (s : EfficiencyStatus) : Efficiency :=
  {| score := 0;
     eff_status := s;
     rating := None;
     total_deliveries := None;
     completed_deliveries := None;
     cancelled_deliveries := None;
     completion_rate := None;
     total_distance_km := None;
     average_distance_per_delivery := None |}.

Definition of_nat (n : nat) : Q := inject_Z (Z.of_nat n).

Definition calculate_driver_efficiency_score (driver_id : UUID)
    (db : Session) : Efficiency :=
  match first (fun d => N.eqb (d_id d) driver_id) (drivers db) with
  | None => no_score unknown
  | Some driver =>
      let total_shipments :=
        List.length (filter (driven_by (d_id driver)) (shipments db)) in
      if (total_shipments =? 0)%nat then no_score no_data
      else
        let completed :=
          List.length
            (filter (fun s => driven_by driver_id s
                              && ShipmentStatus_eqb (s_status s) DELIVERED)
               (shipments db)) in
        let cancelled :=
          List.length
            (filter (fun s => driven_by driver_id s
                              && ShipmentStatus_eqb (s_status s) CANCELLED)
               (shipments db)) in
        let completion_rate :=
          if (0 <? total_shipments)%nat
          then (of_nat completed / of_nat total_shipments) * 100
          else 0 in
        let total_distance :=
          map s_estimated_distance_km
            (filter (fun s => driven_by driver_id s
                              && ShipmentStatus_eqb (s_status s) DELIVERED)
               (shipments db)) in
        let distance_covered := Num.sum (map or_zero total_distance) in
        let efficiency_score :=
          (completion_rate * (7 # 10))
          + Num.Qmin 40 ((of_nat completed / 10) * 40) in
        let '(status, rating) :=
          if Num.Qgeb efficiency_score 80 then (excellent, 5%nat)
          else if Num.Qgeb efficiency_score 60 then (good, 4%nat)
          else if Num.Qgeb efficiency_score 40 then (average, 3%nat)
          else if Num.Qgeb efficiency_score 20 then (needs_improvement, 2%nat)
          else (poor, 1%nat) in
        {| score := Num.round efficiency_score 2;
           eff_status := status;
           rating := Some rating;
           total_deliveries := Some total_shipments;
           completed_deliveries := Some completed;
           cancelled_deliveries := Some cancelled;
           completion_rate := Some (Num.round completion_rate 2);
           total_distance_km := Some (Num.round distance_covered 2);
           average_distance_per_delivery :=
             Some (if (0 <? completed)%nat
                   then Num.round (distance_covered / of_nat completed) 2
                   else 0) |}
  end.

Definition update_driver_location (driver_id : UUID)
    (current_latitude current_longitude : Q) : M unit :=
  (db <- get ;;
   match first (fun d => N.eqb (d_id d) driver_id) (drivers db) with
   | None => raise (Exception "Driver not found")
   | Some _ =>
       let point :=
         TrackingService.from_shape_point current_longitude current_latitude in
       put {| drivers :=
                TrackingService.assign_location driver_id point (drivers db);
              vehicles := vehicles db;
              shipments := shipments db;
              tracking_points := tracking_points db |}
   end)%session.

End DriverReports.

(** ** More of [app/services/vehicle_service.py] *)

Module VehicleReports.
Import DriverService.

(** [db.query(Shipment).join(Driver, Shipment.driver_id == Driver.id)
       .filter(Driver.vehicle_id == vehicle_id)]: the shipments, each with the
    driver row it joins, of the drivers of the vehicle. *)
Definition shipments_of_vehicle (vehicle_id : UUID) (db : Session)
    : list (Shipment * Driver) :=
  flat_map
    (fun s =>
       map (pair s)
         (filter
            (fun d =>
               driven_by (d_id d) s
               && match d_vehicle_id d with
                  | Some v => N.eqb v vehicle_id
                  | None => false
                  end)
            (drivers db)))
    (shipments db).

Definition get_vehicle_utilization_rate (vehicle_id : UUID) (db : Session)
    : Q :=
  match first (fun v => N.eqb (v_id v) vehicle_id) (vehicles db) with
  | None => 0
  | Some vehicle =>
      let total_deliveries :=
        List.length (shipments_of_vehicle vehicle_id db) in
      if (total_deliveries =? 0)%nat then 0
      else Num.Qmin 100 ((DriverReports.of_nat total_deliveries / 30) * 100)
  end.

Inductive MaintenanceStatus :=
| m_unknown | urgent | soon | watch | m_good.

(** [MAINTENANCE_INTERVALS.get(vehicle.vehicle_type, 5000)] *)
Definition maintenance_interval (t : VehicleType) : Q :=
  match t with
  | MOTORCYCLE => 3000
  | VAN => 5000
  | TRUCK => 8000
  | PICKUP => 6000
  end.

(** A key missing from the returned dict is [None]; the recommendation text
    is fixed by the status and the distance. *)
Record Maintenance := {
  m_score : Q;
  m_status : MaintenanceStatus;
  m_total_distance_km : option Q;
  next_maintenance_km : option Q
}.

Definition calculate_vehicle_maintenance_score (vehicle_id : UUID)
    (db : Session) : Maintenance :=
  match first (fun v => N.eqb (v_id v) vehicle_id) (vehicles db) with
  | None =>
      {| m_score := 0;
         m_status := m_unknown;
         m_total_distance_km := None;
         next_maintenance_km := None |}
  | Some vehicle =>
      let total_distance :=
        map (fun sd => s_estimated_distance_km (fst sd))
          (shipments_of_vehicle vehicle_id db) in
      let total_km := Num.sum (map or_zero total_distance) in
      let interval := maintenance_interval (v_vehicle_type vehicle) in
      let score := Num.Qmin 100 ((total_km / interval) * 100) in
      let status :=
        if Num.Qgeb score 90 then urgent
        else if Num.Qgeb score 70 then soon
        else if Num.Qgeb score 50 then watch
        else m_good in
      {| m_score := Num.round score 2;
         m_status := status;
         m_total_distance_km := Some (Num.round total_km 2);
         next_maintenance_km := Some interval |}
  end.

(** The ["reason"] of a vehicle availability result. *)
Inductive VehicleReason :=
| VehicleNotFound
| VehicleIsInactive
| VehicleStatusIs (s : VehicleStatus)
| DriverHasActiveShipments (active_shipments : nat)
| VehicleIsAvailable.

Record VehicleAvailability := {
  va_available : bool;
  va_reason : VehicleReason
}.

Definition check_vehicle_availability (vehicle_id : UUID) (db : Session)
    : VehicleAvailability :=
  match first (fun v => N.eqb (v_id v) vehicle_id) (vehicles db) with
  | None => {| va_available := false; va_reason := VehicleNotFound |}
  | Some vehicle =>
      if negb (v_is_active vehicle)
      then {| va_available := false; va_reason := VehicleIsInactive |}
      else if negb (VehicleStatus_eqb (v_status vehicle) V_AVAILABLE)
      then {| va_available := false;
              va_reason := VehicleStatusIs (v_status vehicle) |}
      else
        let available :=
          {| va_available := true; va_reason := VehicleIsAvailable |} in
        match first
                (fun d => match d_vehicle_id d with
                          | Some v => N.eqb v vehicle_id
                          | None => false
                          end)
                (drivers db) with
        | Some driver =>
            let active_shipments :=
              List.length
                (filter
                   (fun s => driven_by (d_id driver) s
                             && (ShipmentStatus_eqb (s_status s) IN_TRANSIT
                                 || ShipmentStatus_eqb (s_status s) ASSIGNED))
                   (shipments db)) in
            if (0 <? active_shipments)%nat
            then {| va_available := false;
                    va_reason := DriverHasActiveShipments active_shipments |}
            else available
        | None => available
        end
  end.

End VehicleReports.

(** ** Reference definitions for the statements *)

(** The pairs [(l[i-1], l[i])] of a list, in order. *)
Fixpoint consecutive_pairs {A : Type} (l : list A) : list (A * A) :=
  match l with
  | a :: (b :: _) as rest => (a, b) :: consecutive_pairs rest
  | _ => []
  end.

(** A sample database geometry: one coordinate unit is a kilometre and the
    distance between two geometries is the least taxicab distance between
    their vertices, in meters. *)
Definition vertices_of (g : Geometry) : list (Q * Q) :=
  match g with
  | Point x y => [(x, y)]
  | LineString vertices => vertices
  end.

Definition taxicab_vertex (a b : Q * Q) : Q :=
  Qabs (fst a - fst b) + Qabs (snd a - snd b).

Definition taxicab (a b : Geometry) : Q :=
  match flat_map (fun u => map (taxicab_vertex u) (vertices_of b))
          (vertices_of a) with
  | [] => 0
  | d :: ds => 1000 * Num.min_of d ds
  end.

Definition Taxicab : PostGIS := {| ST_Distance := taxicab |}.

(** The length of a line in the sample geometry: the sum of the distances
    between its consecutive vertices. *)
Definition taxicab_length (g : Geometry) : Q :=
  Num.sum
    (map (fun ab => taxicab (Point (fst (fst ab)) (snd (fst ab)))
                      (Point (fst (snd ab)) (snd (snd ab))))
       (consecutive_pairs (vertices_of g))).

Definition TaxicabLength : PostGISLength := {| ST_Length := taxicab_length |}.

(** Elements as the recent releases of geoalchemy2 have them: a name that
    does not open with [ST_] is no attribute, and the [AttributeError]
    carries no message. *)
Definition NoCoordinates : GeoAlchemy :=
  {| element_getattr := fun _ _ => Raise (AttributeError "") |}.

(** Ascending order of [recorded_at]. *)
Definition by_time (p q : TrackingPoint) : Prop :=
  (tp_recorded_at p <= tp_recorded_at q)%Z.

(** The shipment's rows of the log, in the order of the table. *)
Definition rows_of (shipment_id : UUID) (db : Session) : list TrackingPoint :=
  filter (fun p => N.eqb (tp_shipment_id p) shipment_id) (tracking_points db).

(** The distance between the locations of two rows, in the unit of
    [ST_Distance]. *)
Definition segment `{PostGIS} (pc : TrackingPoint * TrackingPoint) : Q :=
  ST_Distance
    (Point (geom_x (tp_location (fst pc))) (geom_y (tp_location (fst pc))))
    (Point (geom_x (tp_location (snd pc))) (geom_y (tp_location (snd pc)))).

(** The distance between two rows in kilometers, as
    [calculate_distance_km] computes it from four coordinates. *)
Definition segment_km `{PostGIS} (pc : TrackingPoint * TrackingPoint) : Q :=
  ShipmentsService.calculate_distance_km
    (geom_y (tp_location (fst pc))) (geom_x (tp_location (fst pc)))
    (geom_y (tp_location (snd pc))) (geom_x (tp_location (snd pc))).

(** The class of vehicle the tiers prefer for a weight and a distance. *)
Module VehicleSpec.

Definition preferred (weight_kg distance_km : Q) (v : Vehicle) : bool :=
  if Num.Qltb distance_km 5 && Num.Qltb weight_kg 10
  then VehicleType_eqb (v_vehicle_type v) MOTORCYCLE
  else if Num.Qltb distance_km 20 && Num.Qltb weight_kg 500
  then VehicleType_eqb (v_vehicle_type v) VAN
       || VehicleType_eqb (v_vehicle_type v) PICKUP
  else VehicleType_eqb (v_vehicle_type v) TRUCK.

End VehicleSpec.

(** Eligibility of a driver for a shipment. *)
Module DriverSpec.
Import DriverService.

Definition dispatchable (d : Driver) : bool :=
  d_is_active d
  && (DriverStatus_eqb (d_status d) AVAILABLE
      || DriverStatus_eqb (d_status d) ON_DUTY)
  && match d_location d with Some _ => true | None => false end.

Definition under_cap (db : Session) (d : Driver) : bool :=
  (total_active (get_driver_active_workload (d_id d) db) <? 5)%nat.

(** The driver has a vehicle id, and the vehicle of that id, when the table
    has one, can carry the weight. *)
Definition vehicle_fits (weight_kg : Q) (db : Session) (d : Driver) : bool :=
  match d_vehicle_id d with
  | Some vehicle_id =>
      match first (fun v => N.eqb (v_id v) vehicle_id) (vehicles db) with
      | Some vehicle => Qle_bool weight_kg (v_capacity_kg vehicle)
      | None => true
      end
  | None => false
  end.

(** The driver has a vehicle, and it can carry the weight. *)
Definition vehicle_carries (weight_kg : Q) (db : Session) (d : Driver) : bool :=
  match d_vehicle_id d with
  | Some vehicle_id =>
      match first (fun v => N.eqb (v_id v) vehicle_id) (vehicles db) with
      | Some vehicle => Qle_bool weight_kg (v_capacity_kg vehicle)
      | None => false
      end
  | None => false
  end.

Definition eligible (weight_kg : Q) (db : Session) (d : Driver) : bool :=
  dispatchable d && under_cap db d && vehicle_fits weight_kg db d.

Definition eligible_with_vehicle (weight_kg : Q) (db : Session) (d : Driver)
    : bool :=
  dispatchable d && under_cap db d && vehicle_carries weight_kg db d.

End DriverSpec.

(** Sample rows and sessions, used to run the services. *)
Module Samples.

Definition ping (id shipment_id : UUID) (x y : Q) (at_ : datetime)
    : TrackingPoint :=
  {| tp_id := id;
     tp_shipment_id := shipment_id;
     tp_location := Point x y;
     tp_speed_kmh := None;
     tp_recorded_at := at_;
     tp_notes := None |}.
Arguments ping (id shipment_id)%_N (x y)%_Q at_%_Z.

Definition empty_db : Session :=
  {| drivers := []; vehicles := []; shipments := []; tracking_points := [] |}.

Definition log_db (log : list TrackingPoint) : Session :=
  {| drivers := []; vehicles := []; shipments := []; tracking_points := log |}.

(** Two points 50 m apart, 6 minutes apart. *)
Definition stop_a : TrackingPoint := ping 10 1 0 0 0.
Definition stop_b : TrackingPoint := ping 11 1 (5 # 100) 0 360000000.
Definition stop_db : Session := log_db [stop_a; stop_b].

(** Two points 1 km apart, one hour apart. *)
Definition km_a : TrackingPoint := ping 20 1 0 0 0.
Definition km_b : TrackingPoint := ping 21 1 1 0 3600000000.
Definition km_db : Session := log_db [km_a; km_b].

(** Two points with the same timestamp. *)
Definition same_a : TrackingPoint := ping 30 1 0 0 0.
Definition same_b : TrackingPoint := ping 31 1 1 0 0.
Definition same_db : Session := log_db [same_a; same_b].

Definition driver_at (id : UUID) (vehicle_id : option UUID) (x y : Q)
    : Driver :=
  {| d_id := id;
     d_vehicle_id := vehicle_id;
     d_status := AVAILABLE;
     d_location := Some (Point x y);
     d_is_active := true |}.

Definition vehicle (id : UUID) (type : VehicleType) (capacity_kg : Q)
    : Vehicle :=
  {| v_id := id;
     v_vehicle_type := type;
     v_capacity_kg := capacity_kg;
     v_status := V_AVAILABLE;
     v_is_active := true |}.

Definition shipment (id : UUID) : Shipment :=
  {| s_id := id;
     s_driver_id := None;
     s_destination := Point 10 0;
     s_status := IN_TRANSIT;
     s_estimated_distance_km := Some 10 |}.

(** A driver and a shipment. *)
Definition ping_db : Session :=
  {| drivers := [driver_at 1 None 0 0];
     vehicles := [];
     shipments := [shipment 1];
     tracking_points := [] |}.

(** The class attributes as the models declare them. *)
Definition mapped : TrackingService.Classes :=
  {| TrackingService.Driver_location := TrackingService.Column;
     TrackingService.Shipment_destination := TrackingService.Column |}.

(** A driver whose vehicle id names no row of the vehicle table. *)
Definition ghost : Driver := driver_at 1 (Some 99%N) 0 2.
Definition ghost_db : Session :=
  {| drivers := [ghost]; vehicles := []; shipments := [];
     tracking_points := [] |}.

(** Three drivers 45, 2 and 10 km from the origin, each with a van. *)
Definition far : Driver := driver_at 1 (Some 1%N) 45 0.
Definition near : Driver := driver_at 2 (Some 2%N) 0 2.
Definition mid : Driver := driver_at 3 (Some 3%N) 0 10.
Definition drivers_db : Session :=
  {| drivers := [far; near; mid];
     vehicles := [vehicle 1 VAN 800; vehicle 2 VAN 800; vehicle 3 VAN 800];
     shipments := [];
     tracking_points := [] |}.

Definition van : Vehicle := vehicle 1 VAN 800.
Definition motorcycle : Vehicle := vehicle 2 MOTORCYCLE 20.
Definition van_db : Session :=
  {| drivers := []; vehicles := [van]; shipments := [];
     tracking_points := [] |}.
Definition van_motorcycle_db : Session :=
  {| drivers := []; vehicles := [van; motorcycle]; shipments := [];
     tracking_points := [] |}.

End Samples.

(** More sample sessions. *)
Module MoreSamples.

Definition delivered (id driver_id : UUID) (km : Q) : Shipment :=
  {| s_id := id;
     s_driver_id := Some driver_id;
     s_destination := Point 10 0;
     s_status := DELIVERED;
     s_estimated_distance_km := Some km |}.

(** Driver 1 drives van 1 and has ten delivered shipments of 100 km. *)
Definition busy_db : Session :=
  {| drivers := [Samples.driver_at 1 (Some 1%N) 0 0];
     vehicles := [Samples.vehicle 1 VAN 800];
     shipments := map (fun id => delivered id 1 100)
                    [1; 2; 3; 4; 5; 6; 7; 8; 9; 10]%N;
     tracking_points := [] |}.

End MoreSamples.

(** Ascending order of the distance of a row [(id, distance)]. *)
Definition closer (a b : UUID * Q) : Prop := snd a <= snd b.

(** The first driver row that names the vehicle. *)
Definition first_driver_of (vehicle_id : UUID) (db : Session)
    : option Driver :=
  first (fun d => match d_vehicle_id d with
                  | Some v => N.eqb v vehicle_id
                  | None => false
                  end) (drivers db).

(** ** Comparisons and rounding *)

Lemma Qltb_lt (a b : Q) : Num.Qltb a b = true <-> a < b.
Proof.
  unfold Num.Qltb. rewrite negb_true_iff.
  split; intro Hab.
  - apply Qnot_le_lt. intro Hle. apply Qle_bool_iff in Hle. congruence.
  - destruct (Qle_bool b a) eqn:E; [|reflexivity].
    apply Qle_bool_iff in E. exfalso. revert E. apply Qlt_not_le. exact Hab.
Qed.

Lemma Qltb_ge (a b : Q) : Num.Qltb a b = false <-> b <= a.
Proof.
  unfold Num.Qltb. rewrite negb_false_iff. apply Qle_bool_iff.
Qed.

Lemma Qgtb_lt (a b : Q) : Num.Qgtb a b = true <-> b < a.
Proof. apply Qltb_lt. Qed.

Lemma Qgeb_le (a b : Q) : Num.Qgeb a b = true <-> b <= a.
Proof. apply Qle_bool_iff. Qed.

Lemma Qltb_comp (a a' b b' : Q) :
  a == a' -> b == b' -> Num.Qltb a b = Num.Qltb a' b'.
Proof.
  intros Ha Hb.
  destruct (Num.Qltb a' b') eqn:E.
  - apply Qltb_lt. apply Qltb_lt in E. rewrite Ha, Hb. exact E.
  - apply Qltb_ge. apply Qltb_ge in E. rewrite Ha, Hb. exact E.
Qed.

Lemma Qle_bool_comp (a a' b b' : Q) :
  a == a' -> b == b' -> Qle_bool a b = Qle_bool a' b'.
Proof.
  intros Ha Hb.
  destruct (Qle_bool a' b') eqn:E.
  - apply Qle_bool_iff. apply Qle_bool_iff in E. rewrite Ha, Hb. exact E.
  - destruct (Qle_bool a b) eqn:E'; [|reflexivity].
    apply Qle_bool_iff in E'. rewrite Ha, Hb in E'.
    apply Qle_bool_iff in E'. congruence.
Qed.

Lemma round_40 : Num.round 40 2 == 40.
Proof. reflexivity. Qed.

Lemma round_0 (n : nat) : Num.round 0 n == 0.
Proof.
  unfold Num.round.
  assert (E : Num.round_half_even (0 * inject_Z (Num.pow10 n)) = 0%Z).
  { unfold Num.round_half_even.
    assert (F : Qfloor (0 * inject_Z (Num.pow10 n)) = 0%Z).
    { rewrite (Qfloor_comp _ 0) by ring. reflexivity. }
    rewrite F.
    assert (T : Num.Qltb (2 * (0 * inject_Z (Num.pow10 n) - inject_Z 0)) 1 = true).
    { apply Qltb_lt. ring_simplify. reflexivity. }
    rewrite T. reflexivity. }
  rewrite E. unfold Qdiv. ring.
Qed.

(** Rounding on sample values. *)
Example round_half_even_ties :
  Num.round_half_even (5 # 2) = 2%Z
  /\ Num.round_half_even (7 # 2) = 4%Z
  /\ Num.round_half_even (- (5 # 2)) = (-2)%Z
  /\ Num.round_half_even (26 # 10) = 3%Z.
Proof. repeat split. Qed.

Example quantize_half_up_ties :
  Num.quantize_cents_half_up (5 # 1000) == 1 # 100
  /\ Num.quantize_cents_half_up (- (5 # 1000)) == - (1 # 100)
  /\ Num.quantize_cents_half_up (1234 # 1000) == 123 # 100.
Proof. repeat split. Qed.

Example round_to_digits :
  Num.round (12345 # 1000) 2 == 1234 # 100
  /\ Num.round (12355 # 1000) 2 == 1236 # 100
  /\ Num.round (125 # 100) 1 == 12 # 10.
Proof. repeat split. Qed.

(** The services on the sample sessions. *)
Example sample_distance :
  @ShipmentsService.calculate_distance_km Taxicab 0 0 40 0 == 40.
Proof. reflexivity. Qed.

(** ** Rounding is monotone *)

Lemma round_half_even_ge_floor (s : Q) :
  (Qfloor s <= Num.round_half_even s <= Qfloor s + 1)%Z.
Proof.
  unfold Num.round_half_even.
  destruct (Num.Qltb _ 1); [lia|].
  destruct (Num.Qltb 1 _); [lia|].
  destruct (Z.even _); lia.
Qed.

Lemma round_half_even_mono (s t : Q) :
  s <= t -> (Num.round_half_even s <= Num.round_half_even t)%Z.
Proof.
  intro Hst.
  pose proof (Qfloor_resp_le _ _ Hst) as Hfg.
  pose proof (round_half_even_ge_floor s) as Hs.
  pose proof (round_half_even_ge_floor t) as Ht.
  destruct (Z.eq_dec (Qfloor s) (Qfloor t)) as [E|NE]; [|
    destruct (Z.eq_dec (Num.round_half_even s) (Qfloor s)); lia].
  unfold Num.round_half_even in *. rewrite <- E in *.
  set (f := Qfloor s) in *.
  destruct (Num.Qltb (2 * (s - inject_Z f)) 1) eqn:S1.
  - destruct (Num.Qltb (2 * (t - inject_Z f)) 1); [lia|].
    destruct (Num.Qltb 1 (2 * (t - inject_Z f))); [lia|].
    destruct (Z.even f); lia.
  - apply Qltb_ge in S1.
    destruct (Num.Qltb (2 * (t - inject_Z f)) 1) eqn:T1.
    + apply Qltb_lt in T1. exfalso. lra.
    + destruct (Num.Qltb 1 (2 * (s - inject_Z f))) eqn:S2.
      * apply Qltb_lt in S2.
        destruct (Num.Qltb 1 (2 * (t - inject_Z f))) eqn:T2; [lia|].
        apply Qltb_ge in T2. exfalso. lra.
      * destruct (Num.Qltb 1 (2 * (t - inject_Z f))); [destruct (Z.even f); lia|].
        destruct (Z.even f); lia.
Qed.

Lemma pow10_pos (n : nat) : (0 < Num.pow10 n)%Z.
Proof. unfold Num.pow10. apply Z.pow_pos_nonneg; lia. Qed.

Lemma round_mono (x y : Q) (n : nat) :
  x <= y -> Num.round x n <= Num.round y n.
Proof.
  intro Hxy. unfold Num.round.
  pose proof (pow10_pos n) as Hp.
  assert (Hq : 0 < inject_Z (Num.pow10 n)).
  { unfold Qlt, inject_Z. cbn. lia. }
  apply Qmult_le_compat_r.
  - rewrite <- Zle_Qle. apply round_half_even_mono.
    apply Qmult_le_compat_r; [exact Hxy|]. now apply Qlt_le_weak.
  - apply Qlt_le_weak. now apply Qinv_lt_0_compat.
Qed.

Lemma round_half_even_Z (z : Z) : Num.round_half_even (inject_Z z) = z.
Proof.
  unfold Num.round_half_even. rewrite Qfloor_Z.
  assert (T : Num.Qltb (2 * (inject_Z z - inject_Z z)) 1 = true).
  { apply Qltb_lt. ring_simplify. reflexivity. }
  now rewrite T.
Qed.

Lemma round_Z (z : Z) (n : nat) : Num.round (inject_Z z) n == inject_Z z.
Proof.
  unfold Num.round.
  pose proof (pow10_pos n) as Hp.
  assert (E : inject_Z z * inject_Z (Num.pow10 n) == inject_Z (z * Num.pow10 n)).
  { now rewrite inject_Z_mult. }
  assert (F : Num.round_half_even (inject_Z z * inject_Z (Num.pow10 n))
              = (z * Num.pow10 n)%Z).
  { rewrite <- round_half_even_Z. unfold Num.round_half_even.
    rewrite (Qfloor_comp _ _ E).
    rewrite (Qltb_comp _ (2 * (inject_Z (z * Num.pow10 n) - inject_Z (Qfloor (inject_Z (z * Num.pow10 n))))) 1 1); [|now rewrite E|reflexivity].
    rewrite (Qltb_comp 1 1 (2 * (inject_Z z * inject_Z (Num.pow10 n) - inject_Z (Qfloor (inject_Z (z * Num.pow10 n))))) (2 * (inject_Z (z * Num.pow10 n) - inject_Z (Qfloor (inject_Z (z * Num.pow10 n)))))); [reflexivity|reflexivity|now rewrite E]. }
  rewrite F, inject_Z_mult. field.
  intro Hc. unfold Qeq, inject_Z in Hc. cbn in Hc. lia.
Qed.

Lemma round_nonneg (x : Q) (n : nat) : 0 <= x -> 0 <= Num.round x n.
Proof.
  intro Hx. rewrite <- (round_0 n). now apply round_mono.
Qed.

Lemma round_le_Z (x : Q) (z : Z) (n : nat) :
  x <= inject_Z z -> Num.round x n <= inject_Z z.
Proof.
  intro Hx. rewrite <- (round_Z z n). now apply round_mono.
Qed.

Lemma round_ge_Z (x : Q) (z : Z) (n : nat) :
  inject_Z z <= x -> inject_Z z <= Num.round x n.
Proof.
  intro Hx. rewrite <- (round_Z z n). now apply round_mono.
Qed.

Lemma round_comp (x y : Q) (n : nat) : x == y -> Num.round x n == Num.round y n.
Proof.
  intro E. apply Qle_antisym; apply round_mono; rewrite E; apply Qle_refl.
Qed.

Lemma round_half_even_nonneg (s : Q) : 0 <= s -> (0 <= Num.round_half_even s)%Z.
Proof.
  intro Hs. change 0%Z with (Num.round_half_even (inject_Z 0)).
  now apply round_half_even_mono.
Qed.

Lemma quantize_nonneg (x : Q) : 0 <= x -> 0 <= Num.quantize_cents_half_up x.
Proof.
  intro Hx. unfold Num.quantize_cents_half_up, Num.round_half_up.
  assert (H100 : 0 <= x * 100).
  { apply Qmult_le_0_compat; [exact Hx|discriminate]. }
  apply Qle_bool_iff in H100 as Hb. rewrite Hb.
  apply Qle_shift_div_l; [reflexivity|].
  rewrite Qmult_0_l. change 0 with (inject_Z 0). rewrite <- Zle_Qle.
  change 0%Z with (Qfloor (inject_Z 0)). apply Qfloor_resp_le.
  change (inject_Z 0) with 0. lra.
Qed.

Lemma Qmin_cases (a b : Q) :
  (Num.Qmin a b = a \/ Num.Qmin a b = b)
  /\ Num.Qmin a b <= a /\ Num.Qmin a b <= b.
Proof.
  unfold Num.Qmin. destruct (Num.Qltb b a) eqn:E.
  - apply Qltb_lt in E. repeat split; auto using Qlt_le_weak, Qle_refl.
  - apply Qltb_ge in E. repeat split; auto using Qle_refl.
Qed.


(** ** Attributes and arguments the services get wrong *)

Section Calls.
Import ShipmentsService TrackingService.
Context `{PostGIS}.

(** [TrackingPoint] declares no attribute [x]. *)
Lemma point_has_no_x (p : TrackingPoint) :
  point_attr p "x"
  = Raise (AttributeError "'TrackingPoint' object has no attribute 'x'").
Proof. reflexivity. Qed.

(** Four positional arguments bind [db] to [dest_lat] and leave [dest_lng]
    without a value. *)
Lemma four_arguments_are_one_short (a b c d : value) :
  calculate_distance_km_call [a; b; c; d]
  = Raise (TypeError
             "calculate_distance_km() missing 1 required positional argument: 'dest_lng'").
Proof. reflexivity. Qed.

(** With the session in front, the call returns the distance. *)
Lemma five_arguments_return (a b c d : Q) :
  calculate_distance_km_call
    [VSession; VNumber a; VNumber b; VNumber c; VNumber d]
  = Return (calculate_distance_km a b c d).
Proof. reflexivity. Qed.

Lemma pair_distance_raises (p q : TrackingPoint) :
  pair_distance p q
  = Raise (AttributeError "'TrackingPoint' object has no attribute 'x'").
Proof. reflexivity. Qed.

End Calls.

(** ** Loops that an exception leaves *)

Section Loops.
Import TrackingService.

Lemma for_each_raised {A S : Type} (body : S -> A -> outcome S)
    (l : list A) (e : exn) :
  fold_left (fun acc a => (state <- acc ;; body state a)%outcome) l (Raise e)
  = Raise e.
Proof. induction l as [|a l IH]; [reflexivity|exact IH]. Qed.

Lemma for_each_cons {A S : Type} (body : S -> A -> outcome S)
    (a : A) (l : list A) (init : S) :
  for_each (a :: l) body init
  = (state <- body init a ;; for_each l body state)%outcome.
Proof.
  unfold for_each. cbn [fold_left and_then].
  destruct (body init a) as [s|e]; [reflexivity|apply for_each_raised].
Qed.

(** A loop over consecutive points whose body raises on every pair raises
    as soon as there are two points. *)
Lemma for_consecutive_raises {A : Type} (tracking_points : list TrackingPoint)
    (body : TrackingPoint -> TrackingPoint -> A -> outcome A) (init : A)
    (e : exn) :
  (2 <= List.length tracking_points)%nat ->
  (forall p q acc, body p q acc = Raise e) ->
  for_consecutive tracking_points body init = Raise e.
Proof.
  destruct tracking_points as [|p [|q rest]]; cbn [List.length]; try lia.
  intros _ Hbody. unfold for_consecutive. cbn [List.length].
  replace (S (S (List.length rest)) - 1)%nat with (S (List.length rest))
    by lia.
  cbn [seq]. rewrite for_each_cons.
  change (nth_error (p :: q :: rest) (1 - 1)) with (Some p).
  change (nth_error (p :: q :: rest) 1) with (Some q).
  cbv iota beta. now rewrite Hbody.
Qed.

End Loops.

(** ** The log of a shipment *)

Section Log.
Import TrackingService.

Lemma insert_by_recorded_at_length (p : TrackingPoint)
    (sorted : list TrackingPoint) :
  List.length (insert_by_recorded_at p sorted) = S (List.length sorted).
Proof.
  induction sorted as [|q rest IH]; cbn; [reflexivity|].
  destruct (tp_recorded_at p <=? tp_recorded_at q)%Z; cbn; [reflexivity|].
  now rewrite IH.
Qed.

Lemma order_by_recorded_at_length (rows : list TrackingPoint) :
  List.length (order_by_recorded_at rows) = List.length rows.
Proof.
  induction rows as [|p rows IH]; [reflexivity|].
  unfold order_by_recorded_at in *. cbn [fold_right].
  now rewrite insert_by_recorded_at_length, IH.
Qed.

(** The query reads every row of the shipment, and no other. *)
Lemma query_length (db : Session) (shipment_id : UUID) :
  List.length (query_tracking_points db shipment_id)
  = List.length (rows_of shipment_id db).
Proof. apply order_by_recorded_at_length. Qed.

(** Rows stored in ascending order of time are read in the order of the
    table. *)
Lemma order_by_recorded_at_sorted_rows (rows : list TrackingPoint) :
  Sorted by_time rows -> order_by_recorded_at rows = rows.
Proof.
  induction rows as [|p rows IH]; intro Hs; [reflexivity|].
  inversion Hs as [|? ? Hs' Hhd]; subst.
  unfold order_by_recorded_at in *. cbn [fold_right]. rewrite (IH Hs').
  destruct rows as [|q rest]; [reflexivity|].
  inversion Hhd as [|? ? Hpq]; subst. unfold by_time in Hpq.
  cbn [insert_by_recorded_at].
  apply Z.leb_le in Hpq. now rewrite Hpq.
Qed.

End Log.

(** ** Recording a ping *)

Section TrackDriver.
Import ShipmentsService TrackingService.
Context `{PostGIS}.

Variables (fresh : UUID) (now : datetime) (driver_id shipment_id : UUID).
Variables (latitude longitude : Q) (speed_kph : option Q).

(** The constructor refuses the keyword [driver_id], the handler rolls back
    and raises, and the row is never added. *)
Lemma save_tracking_point_fails (db : Session) :
  save_tracking_point fresh now driver_id shipment_id latitude longitude
    speed_kph db
  = (Raise (Exception "Error saving tracking point"), db).
Proof. reflexivity. Qed.

Lemma track_driver_fails (db : Session) :
  track_driver fresh now driver_id shipment_id latitude longitude speed_kph db
  = (Raise (Exception "Error saving tracking point"), db).
Proof. reflexivity. Qed.

(** The deviation step on its own: a shipment that is not there gives
    "Shipment route not found"; one that is there has no attribute [route]
    to read. *)
Lemma route_deviation_fails (threshold_meters : Q) (db : Session) :
  calculate_route_deviation shipment_id latitude longitude threshold_meters db
  = (Raise
       match first (fun s => N.eqb (s_id s) shipment_id) (shipments db) with
       | None => Exception "Shipment route not found"
       | Some _ => AttributeError "'Shipment' object has no attribute 'route'"
       end,
     db).
Proof.
  unfold calculate_route_deviation, bind, get.
  destruct (first (fun s => N.eqb (s_id s) shipment_id) (shipments db));
    reflexivity.
Qed.

(** C1. As the code stands, [track_driver] does not validate the coordinates
    of a ping: [validate_coordinates] is not called, and every ping, out of
    range or in range, fails alike with "Error saving tracking point",
    raised when the tracking point is built, and leaves the session as it
    was: no tracking point is added and the location of the driver is
    unchanged. *)
Theorem ping_is_rejected_whatever_its_coordinates (db : Session) :
  let run :=
    track_driver fresh now driver_id shipment_id latitude longitude
      speed_kph db in
  fst run = Raise (Exception "Error saving tracking point")
  /\ tracking_points (snd run) = tracking_points db
  /\ drivers (snd run) = drivers db
  /\ validate_coordinates 0 0 = true
  /\ track_driver fresh now driver_id shipment_id 0 0 speed_kph db = run.
Proof.
  intro run. subst run. rewrite !track_driver_fails.
  repeat split.
Qed.


End TrackDriver.

(** C1 on sample pings of driver 1 for shipment 1: latitude 91 and latitude
    0 meet the same failure. *)
Example sample_ping_out_of_range :
  ShipmentsService.validate_coordinates 91 0 = false
  /\ @TrackingService.track_driver Taxicab 500 0 1 1 91 0 None Samples.ping_db
     = (Raise (Exception "Error saving tracking point"), Samples.ping_db)
  /\ @TrackingService.track_driver Taxicab 500 0 1 1 0 0 None Samples.ping_db
     = (Raise (Exception "Error saving tracking point"), Samples.ping_db).
Proof. repeat split. Qed.


(** ** The tracking analytics *)

Section Analytics.
Import TrackingService.
Context `{PostGIS}.

Variable shipment_id : UUID.
Variable db : Session.

(** C4. As the code stands, [validate_tracking_point_sequence] does throw:
    on a log of fewer than two points it returns valid with no anomaly, and
    on every log of two or more points it raises [AttributeError], reading
    [x] on a tracking point for the distance of the first pair, so that no
    anomaly is ever reported. *)
Theorem validate_sequence_fails_from_two_points :
  ((List.length (rows_of shipment_id db) < 2)%nat ->
   validate_tracking_point_sequence shipment_id db
   = Return {| valid := true;
               anomalies := [];
               total_points_checked := None;
               v_message := NotEnoughData |})
  /\ ((2 <= List.length (rows_of shipment_id db))%nat ->
      validate_tracking_point_sequence shipment_id db
      = Raise (AttributeError "'TrackingPoint' object has no attribute 'x'")).
Proof.
  unfold validate_tracking_point_sequence.
  rewrite <- (query_length db shipment_id).
  split; intro Hlen.
  - apply Nat.ltb_lt in Hlen. now rewrite Hlen.
  - assert (E : (List.length (query_tracking_points db shipment_id) <? 2)%nat
                = false) by (apply Nat.ltb_ge; lia).
    rewrite E. unfold anomalies_of.
    rewrite (for_consecutive_raises _ _ _
               (AttributeError "'TrackingPoint' object has no attribute 'x'"));
      [reflexivity|exact Hlen|reflexivity].
Qed.

(** C6. As the code stands, [detect_delivery_stops] reports no stop: on a
    log of fewer than two points it returns the empty list, and on every log
    of two or more points it raises [AttributeError], reading [x] on a
    tracking point for the distance of the first pair, whatever the
    threshold. *)
Theorem detect_stops_fails_from_two_points (min_stop_minutes : Z) :
  ((List.length (rows_of shipment_id db) < 2)%nat ->
   detect_delivery_stops shipment_id db min_stop_minutes = Return [])
  /\ ((2 <= List.length (rows_of shipment_id db))%nat ->
      detect_delivery_stops shipment_id db min_stop_minutes
      = Raise (AttributeError "'TrackingPoint' object has no attribute 'x'")).
Proof.
  unfold detect_delivery_stops.
  rewrite <- (query_length db shipment_id).
  split; intro Hlen.
  - apply Nat.ltb_lt in Hlen. now rewrite Hlen.
  - assert (E : (List.length (query_tracking_points db shipment_id) <? 2)%nat
                = false) by (apply Nat.ltb_ge; lia).
    rewrite E.
    apply for_consecutive_raises; [exact Hlen|reflexivity].
Qed.

(** C7 (amended). For every log with fewer than two points
    [calculate_average_speed] returns an average and a maximum of 0 with the
    message "Insufficient tracking data", and no minimum. *)
Theorem average_speed_without_data :
  (List.length (rows_of shipment_id db) < 2)%nat ->
  calculate_average_speed shipment_id db
  = Return {| average_speed_kmh := 0;
              max_speed_kmh := 0;
              min_speed_kmh := None;
              si_message := Some "Insufficient tracking data"%string;
              calculated_from_points := None;
              recorded_speeds_available := None |}.
Proof.
  intro Hlen. unfold calculate_average_speed.
  rewrite <- (query_length db shipment_id) in Hlen.
  apply Nat.ltb_lt in Hlen. now rewrite Hlen.
Qed.

(** X1. On every log of two or more points [calculate_average_speed] raises
    [AttributeError], reading [x] on a tracking point for the distance of
    the first pair; so whatever it returns is the result for a log of fewer
    than two points, without a minimum and without a count of speeds. *)
Theorem average_speed_fails_from_two_points :
  ((2 <= List.length (rows_of shipment_id db))%nat ->
   calculate_average_speed shipment_id db
   = Raise (AttributeError "'TrackingPoint' object has no attribute 'x'"))
  /\ (forall r,
        calculate_average_speed shipment_id db = Return r ->
        (List.length (rows_of shipment_id db) < 2)%nat
        /\ min_speed_kmh r = None
        /\ calculated_from_points r = None).
Proof.
  assert (Hraise : (2 <= List.length (rows_of shipment_id db))%nat ->
                   calculate_average_speed shipment_id db
                   = Raise (AttributeError
                              "'TrackingPoint' object has no attribute 'x'")).
  { intro Hlen. unfold calculate_average_speed.
    rewrite <- (query_length db shipment_id) in Hlen.
    assert (E : (List.length (query_tracking_points db shipment_id) <? 2)%nat
                = false) by (apply Nat.ltb_ge; lia).
    rewrite E. unfold speeds_of.
    rewrite (for_consecutive_raises _ _ _
               (AttributeError "'TrackingPoint' object has no attribute 'x'"));
      [reflexivity|exact Hlen|reflexivity]. }
  split; [exact Hraise|].
  intros r Hr.
  destruct (Nat.lt_ge_cases (List.length (rows_of shipment_id db)) 2)
    as [Hlt|Hge].
  - rewrite (average_speed_without_data Hlt) in Hr.
    injection Hr as <-. repeat split. exact Hlt.
  - rewrite (Hraise Hge) in Hr. discriminate Hr.
Qed.

End Analytics.

(** C4 on two sample points with the same timestamp, and on two sample
    points a second and a kilometre apart. *)
Example sample_validate_two_points :
  @TrackingService.validate_tracking_point_sequence Taxicab 1 Samples.same_db
  = Raise (AttributeError "'TrackingPoint' object has no attribute 'x'")
  /\ @TrackingService.validate_tracking_point_sequence Taxicab 1
       (Samples.log_db [Samples.ping 1 1 0 0 0; Samples.ping 2 1 1 0 1000000])
     = Raise (AttributeError "'TrackingPoint' object has no attribute 'x'").
Proof. split; reflexivity. Qed.

(** C6 on two sample points 50 m and 6 minutes apart, with thresholds of 5
    and of 10 minutes. *)
Example sample_stops_two_points :
  @TrackingService.detect_delivery_stops Taxicab 1 Samples.stop_db 5
  = Raise (AttributeError "'TrackingPoint' object has no attribute 'x'")
  /\ @TrackingService.detect_delivery_stops Taxicab 1 Samples.stop_db 10
     = Raise (AttributeError "'TrackingPoint' object has no attribute 'x'").
Proof. split; reflexivity. Qed.

(** A log of one point. *)
Lemma average_speed_without_data_witness :
  (List.length (rows_of 1 (Samples.log_db [Samples.km_a])) < 2)%nat
  /\ @TrackingService.calculate_average_speed Taxicab 1
       (Samples.log_db [Samples.km_a])
     = Return {| TrackingService.average_speed_kmh := 0;
                 TrackingService.max_speed_kmh := 0;
                 TrackingService.min_speed_kmh := None;
                 TrackingService.si_message :=
                   Some "Insufficient tracking data"%string;
                 TrackingService.calculated_from_points := None;
                 TrackingService.recorded_speeds_available := None |}.
Proof.
  assert (Hlen : (List.length (rows_of 1 (Samples.log_db [Samples.km_a]))
                  < 2)%nat) by (cbn; lia).
  split; [exact Hlen|].
  exact (@average_speed_without_data Taxicab 1%N
           (Samples.log_db [Samples.km_a]) Hlen).
Defined.

(** C7, as stated, fails on a shipment without tracking points: the result
    has an average and a maximum, and no minimum. *)
Lemma average_speed_insufficient_has_no_min :
  @TrackingService.calculate_average_speed Taxicab 1 Samples.empty_db
  = Return {| TrackingService.average_speed_kmh := 0;
              TrackingService.max_speed_kmh := 0;
              TrackingService.min_speed_kmh := None;
              TrackingService.si_message :=
                Some "Insufficient tracking data"%string;
              TrackingService.calculated_from_points := None;
              TrackingService.recorded_speeds_available := None |}.
Proof. reflexivity. Qed.

(** ** The estimated delivery time *)

Section EstimatedDelivery.
Import ShipmentsService TrackingService.
Context `{PostGIS}.

Variable now : datetime.
Variables (current_lat current_lng destination_lat destination_lng : Q).

(** What a call does, whatever the speed and the state of the classes. *)
Lemma estimated_delivery_run (current_speed_kmh : option Q)
    (classes : Classes) :
  calculate_estimated_delivery_time now current_lat current_lng
    destination_lat destination_lng current_speed_kmh classes
  = (Raise (TypeError
              "calculate_distance_km() missing 1 required positional argument: 'dest_lng'"),
     {| Driver_location :=
          Assigned (Point current_lng current_lat);
        Shipment_destination :=
          Assigned (Point destination_lng destination_lat) |}).
Proof. reflexivity. Qed.


(** X5. A call of [calculate_estimated_delivery_time] fails, and still
    leaves the class attributes [Driver.location] and
    [Shipment.destination] assigned to the two points of its arguments,
    whatever they were before and whatever the speed. *)
Theorem failed_estimate_overwrites_class_attributes
    (current_speed_kmh : option Q) (classes : Classes) :
  let run :=
    calculate_estimated_delivery_time now current_lat current_lng
      destination_lat destination_lng current_speed_kmh classes in
  (exists e, fst run = Raise e)
  /\ Driver_location (snd run) = Assigned (Point current_lng current_lat)
  /\ Shipment_destination (snd run)
     = Assigned (Point destination_lng destination_lat).
Proof.
  intro run. subst run. rewrite estimated_delivery_run.
  split; [eexists; reflexivity|]. split; reflexivity.
Qed.

End EstimatedDelivery.


(** ** The total distance traveled *)

Section TotalDistance.
Import TrackingService.
Context `{PostGIS} `{PostGISLength}.

(** The database measures a line by its segments, in the unit of
    [ST_Distance]. *)
Hypothesis length_of_segments :
  forall vertices,
    ST_Length (LineString vertices)
    == Num.sum
         (map (fun ab => ST_Distance (Point (fst (fst ab)) (snd (fst ab)))
                           (Point (fst (snd ab)) (snd (snd ab))))
            (consecutive_pairs vertices)).

Lemma consecutive_pairs_map {A B : Type} (f : A -> B) (l : list A) :
  consecutive_pairs (map f l)
  = map (fun ab => (f (fst ab), f (snd ab))) (consecutive_pairs l).
Proof.
  induction l as [|a [|b l] IH]; try reflexivity.
  change (consecutive_pairs (map f (a :: b :: l)))
    with ((f a, f b) :: consecutive_pairs (map f (b :: l))).
  rewrite IH. reflexivity.
Qed.

Lemma line_length_rows (rows : list TrackingPoint) :
  ST_Length
    (LineString (map (fun g => (geom_x g, geom_y g)) (map tp_location rows)))
  == Num.sum (map segment (consecutive_pairs rows)).
Proof.
  rewrite length_of_segments, map_map, consecutive_pairs_map, map_map.
  reflexivity.
Qed.


End TotalDistance.

(** In the sample geometry a line is measured by its segments. *)
Lemma taxicab_length_of_segments (vertices : list (Q * Q)) :
  taxicab_length (LineString vertices)
  == Num.sum
       (map (fun ab => taxicab (Point (fst (fst ab)) (snd (fst ab)))
                         (Point (fst (snd ab)) (snd (snd ab))))
          (consecutive_pairs vertices)).
Proof. reflexivity. Qed.



(** ** Vehicle selection *)

Section OptimalVehicle.
Import VehicleService VehicleSpec.

Lemma find_first_match {A : Type} (f : A -> bool) (before after : list A)
    (v : A) :
  f v = true -> (forall u, In u before -> f u = false) ->
  find f (before ++ v :: after) = Some v.
Proof.
  intros Hv. induction before as [|b before IH]; intro Hb; cbn.
  - now rewrite Hv.
  - rewrite (Hb b) by now left. apply IH. intros u Hu. apply Hb. now right.
Qed.

Lemma find_no_match {A : Type} (f : A -> bool) (l : list A) :
  (forall u, In u l -> f u = false) -> find f l = None.
Proof.
  induction l as [|a l IH]; intro Hl; cbn; [reflexivity|].
  rewrite (Hl a) by now left. apply IH. intros u Hu. apply Hl. now right.
Qed.

Lemma get_optimal_vehicle_preferred (weight_kg distance_km : Q) (db : Session) :
  get_optimal_vehicle_for_shipment weight_kg distance_km db
  = first_of_class_or_first (preferred weight_kg distance_km)
      (filter (suitable weight_kg) (vehicles db)).
Proof.
  unfold get_optimal_vehicle_for_shipment, preferred.
  destruct (filter (suitable weight_kg) (vehicles db)) as [|v l] eqn:E;
    [reflexivity|].
  destruct (Num.Qltb distance_km 5 && Num.Qltb weight_kg 10);
    [reflexivity|].
  destruct (Num.Qltb distance_km 20 && Num.Qltb weight_kg 500); reflexivity.
Qed.

(** C9. [get_optimal_vehicle_for_shipment] keeps the vehicles that are
    active, available and of capacity at least the weight, and among them
    returns the first of the preferred class (motorcycle when the distance is
    below 5 km and the weight below 10 kg; else van or pickup when the
    distance is below 20 km and the weight below 500 kg; else truck); when no
    candidate is of the preferred class it returns the first candidate,
    whatever its class (none when there is no candidate). So when the only
    suitable candidate is a van, at 8 kg and 3 km, the van is chosen. *)
Theorem optimal_vehicle_tiers (weight_kg distance_km : Q) (db : Session) :
  let candidates := filter (suitable weight_kg) (vehicles db) in
  let r := get_optimal_vehicle_for_shipment weight_kg distance_km db in
  (forall v,
      In v candidates
      <-> In v (vehicles db)
          /\ v_status v = V_AVAILABLE
          /\ v_is_active v = true
          /\ weight_kg <= v_capacity_kg v)
  /\ (forall v,
        preferred weight_kg distance_km v = true
        <-> (distance_km < 5 /\ weight_kg < 10
             /\ v_vehicle_type v = MOTORCYCLE)
            \/ (~ (distance_km < 5 /\ weight_kg < 10)
                /\ distance_km < 20 /\ weight_kg < 500
                /\ (v_vehicle_type v = VAN \/ v_vehicle_type v = PICKUP))
            \/ (~ (distance_km < 5 /\ weight_kg < 10)
                /\ ~ (distance_km < 20 /\ weight_kg < 500)
                /\ v_vehicle_type v = TRUCK))
  /\ (forall before v after,
        candidates = before ++ v :: after ->
        preferred weight_kg distance_km v = true ->
        (forall u, In u before -> preferred weight_kg distance_km u = false) ->
        r = Some v)
  /\ ((forall u, In u candidates -> preferred weight_kg distance_km u = false) ->
        r = hd_error candidates)
  /\ (forall v,
        weight_kg == 8 -> distance_km == 3 ->
        v_vehicle_type v = VAN -> candidates = [v] -> r = Some v).
Proof.
  intros candidates r.
  assert (Hr : r = first_of_class_or_first (preferred weight_kg distance_km)
                     candidates) by apply get_optimal_vehicle_preferred.
  assert (Hnone : (forall u, In u candidates ->
                     preferred weight_kg distance_km u = false) ->
                  r = hd_error candidates).
  { intro Hno. rewrite Hr. unfold first_of_class_or_first.
    rewrite find_no_match by exact Hno. now destruct candidates. }
  split; [|split; [|split; [|split]]].
  - intro v. subst candidates. rewrite filter_In. unfold suitable.
    rewrite !andb_true_iff, Qgeb_le.
    split.
    + intros (Hin & (Hs & Ha) & Hc). repeat split; auto.
      now destruct (v_status v).
    + intros (Hin & Hs & Ha & Hc). rewrite Hs. repeat split; auto.
  - intro v. unfold preferred.
    destruct (Num.Qltb distance_km 5) eqn:D5;
      destruct (Num.Qltb weight_kg 10) eqn:W10;
      destruct (Num.Qltb distance_km 20) eqn:D20;
      destruct (Num.Qltb weight_kg 500) eqn:W500;
      cbn [andb];
      rewrite ?Qltb_lt in *; rewrite ?Qltb_ge in *;
      destruct (v_vehicle_type v); cbn;
      (split;
       [ intro Ht; try discriminate Ht;
         first [ left; repeat split; assumption
               | right; left; repeat split; auto;
                 intros [? ?]; lra
               | right; right; repeat split; auto;
                 intros [? ?]; lra ]
       | intros [(? & ? & ?) | [(? & ? & ? & [?|?]) | (? & ? & ?)]];
         try reflexivity; try discriminate; exfalso;
         first [ lra | tauto ] ]).
  - intros before v after Hc Hv Hb. rewrite Hr. unfold first_of_class_or_first.
    rewrite Hc. now rewrite (find_first_match _ before after v Hv Hb).
  - exact Hnone.
  - intros v Hw Hd Hv Hc.
    rewrite Hnone; [now rewrite Hc|].
    intros u Hu. rewrite Hc in Hu. destruct Hu as [<-|[]].
    unfold preferred.
    rewrite (Qltb_comp distance_km 3 5 5 Hd (Qeq_refl 5)).
    rewrite (Qltb_comp weight_kg 8 10 10 Hw (Qeq_refl 10)).
    cbn. now rewrite Hv.
Qed.

End OptimalVehicle.

(** At 8 kg and 3 km: a van alone is chosen; with a motorcycle also there,
    the motorcycle is. *)
Lemma optimal_vehicle_tiers_witness :
  (filter (VehicleService.suitable 8) (vehicles Samples.van_db) = [Samples.van]
   /\ VehicleService.get_optimal_vehicle_for_shipment 8 3 Samples.van_db
      = Some Samples.van)
  /\ (VehicleSpec.preferred 8 3 Samples.motorcycle = true
      /\ VehicleService.get_optimal_vehicle_for_shipment 8 3
           Samples.van_motorcycle_db
         = Some Samples.motorcycle).
Proof.
  assert (Hc : filter (VehicleService.suitable 8) (vehicles Samples.van_db)
               = [Samples.van]) by reflexivity.
  assert (Hm : VehicleSpec.preferred 8 3 Samples.motorcycle = true)
    by reflexivity.
  split; (split; [assumption|]).
  - apply (proj2 (proj2 (proj2 (proj2
             (optimal_vehicle_tiers 8 3 Samples.van_db))))
             Samples.van (Qeq_refl 8) (Qeq_refl 3) eq_refl Hc).
  - apply (proj1 (proj2 (proj2 (optimal_vehicle_tiers 8 3
                                  Samples.van_motorcycle_db)))
             [Samples.van] Samples.motorcycle [] eq_refl Hm).
    intros u [<-|[]]. reflexivity.
Defined.

(** ** Driver availability *)

Section Availability.
Import DriverService DriverSpec.

Lemma first_none_iff {A : Type} (f : A -> bool) (l : list A) :
  first f l = None <-> forall a, In a l -> f a = false.
Proof.
  unfold first. split.
  - intros Hn a Ha. exact (find_none f l Hn a Ha).
  - apply find_no_match.
Qed.

(** The availability verdict for a driver row found under the id. *)
Lemma check_availability_found (driver_id : UUID) (weight_kg : Q)
    (db : Session) (driver : Driver) :
  first (fun d => N.eqb (d_id d) driver_id) (drivers db) = Some driver ->
  available (check_driver_availability_for_shipment driver_id weight_kg db)
  = d_is_active driver
    && negb (DriverStatus_eqb (d_status driver) OFF_DUTY)
    && (total_active (get_driver_active_workload driver_id db) <? 5)%nat
    && match d_vehicle_id driver with
       | Some vehicle_id =>
           match first (fun v => N.eqb (v_id v) vehicle_id) (vehicles db) with
           | Some vehicle => Qle_bool weight_kg (v_capacity_kg vehicle)
           | None => true
           end
       | None => false
       end.
Proof.
  intro Hd. unfold check_driver_availability_for_shipment. rewrite Hd.
  destruct (d_is_active driver); [|reflexivity].
  destruct (DriverStatus_eqb (d_status driver) OFF_DUTY); [reflexivity|].
  cbn [negb andb can_accept_more get_driver_active_workload total_active].
  match goal with |- context [(?n <? 5)%nat] => destruct (n <? 5)%nat end;
    [|reflexivity].
  cbn [negb andb].
  destruct (d_vehicle_id driver) as [vid|]; [|reflexivity].
  destruct (first (fun v => N.eqb (v_id v) vid) (vehicles db)) as [v|];
    [|reflexivity].
  unfold Num.Qltb. now destruct (Qle_bool weight_kg (v_capacity_kg v)).
Qed.

(** C10. A driver that exists, is active, is not off duty and is under the
    workload cap, and whose vehicle id names no row of the vehicle table, is
    reported available for a shipment of any weight: the capacity check is
    skipped. *)
Theorem missing_vehicle_row_is_available (driver_id : UUID) (weight_kg : Q)
    (db : Session) (driver : Driver) (vehicle_id : UUID) :
  first (fun d => N.eqb (d_id d) driver_id) (drivers db) = Some driver ->
  d_is_active driver = true ->
  d_status driver <> OFF_DUTY ->
  (total_active (get_driver_active_workload driver_id db) < 5)%nat ->
  d_vehicle_id driver = Some vehicle_id ->
  (forall v, In v (vehicles db) -> v_id v <> vehicle_id) ->
  available (check_driver_availability_for_shipment driver_id weight_kg db)
  = true
  /\ reason (check_driver_availability_for_shipment driver_id weight_kg db)
     = DriverIsAvailable.
Proof.
  intros Hd Ha Hs Hw Hv Hnone.
  assert (Hf : first (fun v => N.eqb (v_id v) vehicle_id) (vehicles db) = None).
  { apply first_none_iff. intros v Hin. apply N.eqb_neq. now apply Hnone. }
  split.
  - rewrite (check_availability_found _ _ _ _ Hd), Ha, Hv, Hf.
    apply Nat.ltb_lt in Hw. rewrite Hw.
    now destruct (d_status driver).
  - unfold check_driver_availability_for_shipment.
    rewrite Hd, Ha, Hv, Hf. cbn [negb].
    destruct (DriverStatus_eqb (d_status driver) OFF_DUTY) eqn:E;
      [now destruct (d_status driver)|].
    cbn [can_accept_more get_driver_active_workload total_active] in *.
    apply Nat.ltb_lt in Hw. rewrite Hw. reflexivity.
Qed.

End Availability.

(** The sample driver's vehicle id 99 names no vehicle; a shipment of
    100 000 kg is accepted. *)
Lemma missing_vehicle_row_is_available_witness :
  first (fun d => N.eqb (d_id d) 1) (drivers Samples.ghost_db)
  = Some Samples.ghost
  /\ d_vehicle_id Samples.ghost = Some 99%N
  /\ DriverService.available
       (DriverService.check_driver_availability_for_shipment 1 100000
          Samples.ghost_db)
     = true.
Proof.
  assert (Hd : first (fun d => N.eqb (d_id d) 1) (drivers Samples.ghost_db)
               = Some Samples.ghost) by reflexivity.
  assert (Hv : d_vehicle_id Samples.ghost = Some 99%N) by reflexivity.
  assert (Hs : d_status Samples.ghost <> OFF_DUTY) by discriminate.
  assert (Hw : (DriverService.total_active
                  (DriverService.get_driver_active_workload 1 Samples.ghost_db)
                < 5)%nat) by (cbn; lia).
  assert (Hn : forall v, In v (vehicles Samples.ghost_db) -> v_id v <> 99%N)
    by (intros v []).
  split; [exact Hd|]. split; [exact Hv|].
  exact (proj1 (missing_vehicle_row_is_available 1 100000 Samples.ghost_db
                  Samples.ghost 99 Hd eq_refl Hs Hw Hv Hn)).
Defined.

(** ** Nearest available driver *)

Section NearestDriver.
Import ShipmentsService DriverService DriverSpec.
Context `{PostGIS} `{GeoAlchemy}.

Variables (origin_lat origin_lng weight_kg max_distance_km : Q).
Variable db : Session.

Lemma first_self (l : list Driver) (d : Driver) :
  NoDup (map d_id l) -> In d l ->
  first (fun x => N.eqb (d_id x) (d_id d)) l = Some d.
Proof.
  unfold first. induction l as [|a l IH]; intros Hnd Hin; [contradiction|].
  cbn in Hnd. inversion Hnd as [|? ? Hnotin Hnd']; subst. cbn.
  destruct Hin as [->|Hin].
  - now rewrite N.eqb_refl.
  - destruct (N.eqb (d_id a) (d_id d)) eqn:E.
    + apply N.eqb_eq in E. exfalso. apply Hnotin. rewrite E.
      now apply in_map.
    + now apply IH.
Qed.

Lemma available_eligible (d : Driver) :
  NoDup (map d_id (drivers db)) -> In d (drivers db) ->
  dispatchable d = true ->
  available (check_driver_availability_for_shipment (d_id d) weight_kg db)
  = under_cap db d && vehicle_fits weight_kg db d.
Proof.
  intros Hnd Hin Hd.
  rewrite (check_availability_found _ _ _ d (first_self _ d Hnd Hin)).
  unfold dispatchable in Hd. apply andb_true_iff in Hd. destruct Hd as [Hd _].
  apply andb_true_iff in Hd. destruct Hd as [Ha Hs]. rewrite Ha.
  assert (Hoff : DriverStatus_eqb (d_status d) OFF_DUTY = false)
    by (destruct (d_status d); [reflexivity|reflexivity|discriminate Hs]).
  rewrite Hoff. reflexivity.
Qed.

(** The drivers the loop does not skip are the eligible ones. *)
Lemma located_available_eligible (d : Driver) :
  NoDup (map d_id (drivers db)) ->
  (In d (located_drivers db)
   /\ available (check_driver_availability_for_shipment (d_id d) weight_kg db)
      = true)
  <-> (In d (drivers db) /\ eligible weight_kg db d = true).
Proof.
  intro Hnd. unfold located_drivers. rewrite filter_In.
  change (d_is_active d
          && (DriverStatus_eqb (d_status d) AVAILABLE
              || DriverStatus_eqb (d_status d) ON_DUTY)
          && match d_location d with Some _ => true | None => false end)
    with (dispatchable d).
  unfold eligible.
  split.
  - intros [[Hin Hd] Ha]. split; [exact Hin|].
    rewrite (available_eligible d Hnd Hin Hd) in Ha.
    now rewrite Hd, <- andb_assoc, Ha.
  - intros [Hin He]. rewrite <- andb_assoc in He.
    apply andb_true_iff in He. destruct He as [Hd Hrest].
    split; [now split|].
    now rewrite (available_eligible d Hnd Hin Hd).
Qed.

(** The distance to a driver is never obtained: reading [y] or [x] on the
    location raises, or else the call is one argument short. *)
Lemma distance_to_raises (driver : Driver) :
  exists e, distance_to origin_lat origin_lng driver = Raise e.
Proof.
  unfold distance_to.
  destruct (d_location driver) as [location|].
  - destruct (element_getattr location "y") as [y|e];
      [|eexists; reflexivity].
    destruct (element_getattr location "x") as [x|e];
      eexists; reflexivity.
  - eexists; reflexivity.
Qed.

Lemma consider_skips (nearest : option Driver * option Q) (driver : Driver) :
  available (check_driver_availability_for_shipment (d_id driver)
               weight_kg db) = false ->
  consider origin_lat origin_lng weight_kg db max_distance_km nearest driver
  = Return nearest.
Proof. intro Ha. unfold consider. now rewrite Ha. Qed.

Lemma consider_raises (nearest : option Driver * option Q) (driver : Driver) :
  available (check_driver_availability_for_shipment (d_id driver)
               weight_kg db) = true ->
  exists e,
    consider origin_lat origin_lng weight_kg db max_distance_km nearest driver
    = Raise e.
Proof.
  intro Ha. unfold consider. rewrite Ha. cbn [negb].
  destruct (distance_to_raises driver) as [e He]. exists e.
  now rewrite He.
Qed.

(** The loop either skips every driver or raises at the first it does not
    skip. *)
Lemma scan_drivers (l : list Driver) :
  let skipped d :=
    negb (available (check_driver_availability_for_shipment (d_id d)
                       weight_kg db)) in
  if forallb skipped l
  then for_each l (consider origin_lat origin_lng weight_kg db max_distance_km)
         (None, None)
       = Return (None, None)
  else exists e,
         for_each l
           (consider origin_lat origin_lng weight_kg db max_distance_km)
           (None, None)
         = Raise e.
Proof.
  intro skipped. induction l as [|d l IH]; [reflexivity|].
  cbn [forallb]. rewrite for_each_cons. unfold skipped at 1.
  destruct (available (check_driver_availability_for_shipment (d_id d)
                         weight_kg db)) eqn:Ha; cbn [negb andb].
  - destruct (consider_raises (None, None) d Ha) as [e He].
    exists e. now rewrite He.
  - rewrite (consider_skips (None, None) d Ha). cbn [and_then]. exact IH.
Qed.

Lemma find_nearest_cases :
  let skipped d :=
    negb (available (check_driver_availability_for_shipment (d_id d)
                       weight_kg db)) in
  if forallb skipped (located_drivers db)
  then find_nearest_available_driver origin_lat origin_lng weight_kg db
         max_distance_km
       = Return None
  else exists e,
         find_nearest_available_driver origin_lat origin_lng weight_kg db
           max_distance_km
         = Raise e.
Proof.
  intro skipped. pose proof (scan_drivers (located_drivers db)) as Hs.
  cbv zeta in Hs. fold skipped in Hs.
  unfold find_nearest_available_driver.
  destruct (forallb skipped (located_drivers db)).
  - now rewrite Hs.
  - destruct Hs as [e He]. exists e. now rewrite He.
Qed.


(** X14. As the code stands, [find_nearest_available_driver] never returns a
    driver: as soon as one driver of the table is eligible the search
    raises, the distance to the driver being asked with a coordinate read
    on the location element and one argument short; the only result it
    returns is none. *)
Theorem nearest_search_never_returns_a_driver :
  NoDup (map d_id (drivers db)) ->
  ((exists d, In d (drivers db) /\ eligible weight_kg db d = true) ->
   exists e,
     find_nearest_available_driver origin_lat origin_lng weight_kg db
       max_distance_km
     = Raise e)
  /\ (forall r,
        find_nearest_available_driver origin_lat origin_lng weight_kg db
          max_distance_km
        = Return r ->
        r = None).
Proof.
  intro Hnd. pose proof find_nearest_cases as Hc. cbv zeta in Hc.
  split.
  - intros (d & Hin & He).
    destruct (proj2 (located_available_eligible d Hnd) (conj Hin He))
      as [Hloc Ha].
    destruct (forallb _ (located_drivers db)) eqn:Hall; [|exact Hc].
    exfalso. rewrite forallb_forall in Hall.
    specialize (Hall d Hloc). rewrite Ha in Hall. discriminate Hall.
  - intros r Hr.
    destruct (forallb _ (located_drivers db)).
    + rewrite Hc in Hr. now injection Hr as <-.
    + destruct Hc as [e He]. rewrite He in Hr. discriminate Hr.
Qed.

End NearestDriver.


(** Three eligible drivers 45, 2 and 10 km away, 50 km allowed. *)
Lemma nearest_search_never_returns_a_driver_witness :
  NoDup (map d_id (drivers Samples.drivers_db))
  /\ DriverSpec.eligible 500 Samples.drivers_db Samples.near = true
  /\ exists e,
       @DriverService.find_nearest_available_driver Taxicab NoCoordinates
         0 0 500 Samples.drivers_db 50
       = Raise e.
Proof.
  assert (Hnd : NoDup (map d_id (drivers Samples.drivers_db))).
  { cbn. repeat constructor; cbn; intuition discriminate. }
  assert (He : DriverSpec.eligible 500 Samples.drivers_db Samples.near = true)
    by reflexivity.
  split; [exact Hnd|]. split; [exact He|].
  apply (proj1 (@nearest_search_never_returns_a_driver Taxicab NoCoordinates
                  0 0 500 50 Samples.drivers_db Hnd)).
  exists Samples.near. split; [|exact He]. cbn. auto.
Defined.


(** ** Further properties of the estimates *)

Section EstimatesFurther.
Import ShipmentsService TrackingService TrackingQueries.
Context `{PostGIS}.

(** X6. [calculate_eta] declines (returns [None]) exactly when the speed is
    zero or negative; otherwise it returns the minutes, which are not
    negative when the distance is not negative and do not decrease when the
    distance grows. *)
Theorem calculate_eta_declines_without_speed
    (remaining_distance_meters speed_kph : Q) :
  (calculate_eta remaining_distance_meters speed_kph = None
   <-> speed_kph <= 0)
  /\ (0 < speed_kph ->
      exists minutes,
        calculate_eta remaining_distance_meters speed_kph = Some minutes
        /\ (0 <= remaining_distance_meters -> 0 <= minutes)
        /\ forall farther minutes',
             remaining_distance_meters <= farther ->
             calculate_eta farther speed_kph = Some minutes' ->
             minutes <= minutes').
Proof.
  assert (Hcase : forall d,
             (speed_kph <= 0 /\ calculate_eta d speed_kph = None)
             \/ (0 < speed_kph
                 /\ calculate_eta d speed_kph
                    = Some (Num.round (d / 1000 / speed_kph * 60) 2))).
  { intro d. unfold calculate_eta, truthy_number.
    destruct (Qle_bool speed_kph 0) eqn:E.
    - left. split; [now apply Qle_bool_iff|]. now rewrite orb_true_r.
    - right.
      assert (Hpos : 0 < speed_kph).
      { apply Qnot_le_lt. intro Hc. apply Qle_bool_iff in Hc. congruence. }
      split; [exact Hpos|].
      destruct (Qeq_bool speed_kph 0) eqn:E0; [|reflexivity].
      apply Qeq_bool_iff in E0. rewrite E0 in Hpos.
      exfalso. revert Hpos. apply Qlt_irrefl. }
  assert (Hscale : forall d d', 0 < speed_kph -> d <= d' ->
             d / 1000 / speed_kph * 60 <= d' / 1000 / speed_kph * 60).
  { intros d d' Hpos Hd.
    apply Qmult_le_compat_r; [|discriminate].
    apply Qmult_le_compat_r;
      [|apply Qlt_le_weak; now apply Qinv_lt_0_compat].
    apply Qmult_le_compat_r; [exact Hd|discriminate]. }
  split.
  - destruct (Hcase remaining_distance_meters) as [[Hle ->]|[Hpos ->]].
    + tauto.
    + split; [discriminate|]. intro Hle. exfalso. lra.
  - intro Hpos.
    destruct (Hcase remaining_distance_meters) as [[Hle _]|[_ Hsome]];
      [exfalso; lra|].
    eexists. split; [exact Hsome|]. split.
    + intro Hd. apply round_nonneg.
      assert (E0 : 0 / 1000 / speed_kph * 60 == 0).
      { unfold Qdiv. ring. }
      rewrite <- E0. now apply Hscale.
    + intros farther minutes' Hf Hm'.
      destruct (Hcase farther) as [[Hle _]|[_ Hsome']]; [exfalso; lra|].
      rewrite Hsome' in Hm'. inversion Hm'; subst.
      apply round_mono. now apply Hscale.
Qed.

End EstimatesFurther.

(** 1500 m at 30 km/h, against 3000 m. *)
Lemma calculate_eta_declines_without_speed_witness :
  0 < 30
  /\ exists minutes,
       TrackingQueries.calculate_eta 1500 30 = Some minutes
       /\ (0 <= 1500 -> 0 <= minutes)
       /\ forall farther minutes',
            1500 <= farther ->
            TrackingQueries.calculate_eta farther 30 = Some minutes' ->
            minutes <= minutes'.
Proof.
  assert (Hpos : 0 < 30) by reflexivity.
  split; [exact Hpos|].
  exact (proj2 (calculate_eta_declines_without_speed 1500 30) Hpos).
Defined.

(** ** Drivers within a radius *)

Section NearestDrivers.
Import TrackingService TrackingQueries.
Context `{PostGIS}.

Lemma insert_by_distance_In (row x : UUID * Q) (l : list (UUID * Q)) :
  In x (insert_by_distance row l) <-> x = row \/ In x l.
Proof.
  induction l as [|r l IH]; cbn.
  - intuition.
  - destruct (Qle_bool (snd row) (snd r)); cbn; [intuition|].
    rewrite IH. intuition.
Qed.

Lemma order_by_distance_In (x : UUID * Q) (l : list (UUID * Q)) :
  In x (order_by_distance l) <-> In x l.
Proof.
  induction l as [|r l IH]; cbn; [tauto|].
  rewrite insert_by_distance_In, IH. intuition.
Qed.

Lemma insert_by_distance_length (row : UUID * Q) (l : list (UUID * Q)) :
  List.length (insert_by_distance row l) = S (List.length l).
Proof.
  induction l as [|r l IH]; cbn; [reflexivity|].
  destruct (Qle_bool (snd row) (snd r)); cbn; [reflexivity|now rewrite IH].
Qed.

Lemma order_by_distance_length (l : list (UUID * Q)) :
  List.length (order_by_distance l) = List.length l.
Proof.
  induction l as [|r l IH]; [reflexivity|].
  change (order_by_distance (r :: l))
    with (insert_by_distance r (order_by_distance l)).
  rewrite insert_by_distance_length, IH. reflexivity.
Qed.

Lemma insert_by_distance_sorted (row : UUID * Q) (l : list (UUID * Q)) :
  StronglySorted closer l -> StronglySorted closer (insert_by_distance row l).
Proof.
  induction 1 as [|r l Hl IH Hr]; cbn.
  - repeat constructor.
  - destruct (Qle_bool (snd row) (snd r)) eqn:E.
    + apply Qle_bool_iff in E. constructor; [now constructor|].
      constructor; [exact E|].
      apply Forall_forall. intros x Hx. unfold closer.
      eapply Qle_trans; [exact E|].
      rewrite Forall_forall in Hr. now apply Hr.
    + constructor; [exact IH|].
      apply Forall_forall. intros x Hx.
      apply insert_by_distance_In in Hx. destruct Hx as [->|Hx].
      * unfold closer. apply Qlt_le_weak, Qnot_le_lt.
        intro Hc. apply Qle_bool_iff in Hc. congruence.
      * rewrite Forall_forall in Hr. now apply Hr.
Qed.

Lemma order_by_distance_sorted (l : list (UUID * Q)) :
  StronglySorted closer (order_by_distance l).
Proof.
  induction l as [|r l IH]; cbn; [constructor|].
  now apply insert_by_distance_sorted.
Qed.

Lemma in_firstn {A : Type} (k : nat) (l : list A) (x : A) :
  In x (firstn k l) -> In x l.
Proof.
  intro Hx. rewrite <- (firstn_skipn k l). apply in_or_app. now left.
Qed.

Lemma in_skipn {A : Type} (k : nat) (l : list A) (x : A) :
  In x (skipn k l) -> In x l.
Proof.
  intro Hx. rewrite <- (firstn_skipn k l). apply in_or_app. now right.
Qed.

Lemma sorted_firstn (k : nat) (l : list (UUID * Q)) :
  StronglySorted closer l ->
  StronglySorted closer (firstn k l)
  /\ forall x y, In x (firstn k l) -> In y (skipn k l) -> closer x y.
Proof.
  intro Hl. revert k. induction Hl as [|r l Hl IH Hr]; intro k.
  - rewrite firstn_nil, skipn_nil. split; [constructor|contradiction].
  - destruct k as [|k]; cbn [firstn skipn].
    + split; [constructor|contradiction].
    + destruct (IH k) as [IH1 IH2]. rewrite Forall_forall in Hr. split.
      * constructor; [exact IH1|]. apply Forall_forall.
        intros x Hx. apply Hr. eapply in_firstn; eauto.
      * intros x y [<-|Hx] Hy.
        -- apply Hr. eapply in_skipn; eauto.
        -- now apply IH2.
Qed.

Lemma drivers_within_In (db : Session) (point : Geometry) (radius : Q)
    (row : UUID * Q) :
  In row (drivers_within db point radius)
  <-> exists d location,
        In d (drivers db)
        /\ d_location d = Some location
        /\ ST_Distance location point <= radius
        /\ row = (d_id d, ST_Distance location point).
Proof.
  unfold drivers_within, ST_DWithin. rewrite in_flat_map. split.
  - intros (d & Hd & Hrow). destruct (d_location d) as [loc|] eqn:El;
      [|contradiction].
    destruct (Qle_bool (ST_Distance loc point) radius) eqn:E;
      [|contradiction].
    destruct Hrow as [<-|[]]. apply Qle_bool_iff in E.
    exists d, loc. auto.
  - intros (d & loc & Hd & El & Hr & ->). exists d. split; [exact Hd|].
    rewrite El. apply Qle_bool_iff in Hr. rewrite Hr. now left.
Qed.

(** X7. [find_nearest_drivers] returns at most [limit] rows, in ascending
    order of distance; each row is a driver with a location at most
    [radius_meters] from the point, with its distance; and a located driver
    within the radius is left out only when the [limit] rows returned are
    all at least as near. *)
Theorem nearest_drivers_are_the_closest (db : Session)
    (latitude longitude radius_meters : Q) (limit : nat) :
  let point := Point longitude latitude in
  let rows := find_nearest_drivers db latitude longitude radius_meters limit in
  (List.length rows <= limit)%nat
  /\ StronglySorted (fun a b => snd a <= snd b) rows
  /\ (forall row,
        In row rows ->
        exists d location,
          In d (drivers db)
          /\ d_location d = Some location
          /\ ST_Distance location point <= radius_meters
          /\ row = (d_id d, ST_Distance location point))
  /\ (forall d location,
        In d (drivers db) ->
        d_location d = Some location ->
        ST_Distance location point <= radius_meters ->
        In (d_id d, ST_Distance location point) rows
        \/ (List.length rows = limit
            /\ forall row, In row rows ->
                 snd row <= ST_Distance location point)).
Proof.
  intros point rows. subst rows. unfold find_nearest_drivers, from_shape_point.
  fold point.
  set (sorted := order_by_distance (drivers_within db point radius_meters)).
  assert (Hs : StronglySorted closer sorted)
    by apply order_by_distance_sorted.
  destruct (sorted_firstn limit sorted Hs) as [Hfirst Hcut].
  split; [apply firstn_le_length|]. split; [exact Hfirst|]. split.
  - intros row Hin. apply in_firstn in Hin. unfold sorted in Hin.
    apply (proj1 (order_by_distance_In _ _)) in Hin.
    apply (proj1 (drivers_within_In _ _ _ _)) in Hin. exact Hin.
  - intros d loc Hd El Hr.
    assert (Hin : In (d_id d, ST_Distance loc point) sorted).
    { apply order_by_distance_In, drivers_within_In. exists d, loc. auto. }
    rewrite <- (firstn_skipn limit sorted) in Hin.
    apply in_app_or in Hin. destruct Hin as [Hin|Hin]; [now left|].
    right. split.
    + rewrite length_firstn. apply Nat.min_l.
      destruct (Nat.le_gt_cases limit (List.length sorted)) as [|Hlt];
        [assumption|].
      rewrite skipn_all2 in Hin by lia. contradiction.
    + intros row Hrow. exact (Hcut row _ Hrow Hin).
Qed.

End NearestDrivers.

(** Three located drivers within 50 km and a limit of 2. *)
Lemma nearest_drivers_are_the_closest_witness :
  In Samples.far (drivers Samples.drivers_db)
  /\ d_location Samples.far = Some (Point 45 0)
  /\ taxicab (Point 45 0) (Point 0 0) <= 50000
  /\ (In (d_id Samples.far, taxicab (Point 45 0) (Point 0 0))
         (@TrackingQueries.find_nearest_drivers Taxicab Samples.drivers_db
            0 0 50000 2)
      \/ (List.length
            (@TrackingQueries.find_nearest_drivers Taxicab Samples.drivers_db
               0 0 50000 2) = 2%nat
          /\ forall row,
               In row (@TrackingQueries.find_nearest_drivers Taxicab
                         Samples.drivers_db 0 0 50000 2) ->
               snd row <= taxicab (Point 45 0) (Point 0 0))).
Proof.
  assert (Hin : In Samples.far (drivers Samples.drivers_db)) by now left.
  assert (Hl : d_location Samples.far = Some (Point 45 0)) by reflexivity.
  assert (Hr : taxicab (Point 45 0) (Point 0 0) <= 50000)
    by (vm_compute; discriminate).
  split; [exact Hin|]. split; [exact Hl|]. split; [exact Hr|].
  exact (proj2 (proj2 (proj2
           (@nearest_drivers_are_the_closest Taxicab Samples.drivers_db
              0 0 50000 2)))
           Samples.far (Point 45 0) Hin Hl Hr).
Defined.

(** ** Updating a driver's location *)

Section DriverLocation.
Import TrackingService DriverReports.

Lemma assign_location_ids (driver_id : UUID) (point : Geometry)
    (rows : list Driver) :
  map d_id (assign_location driver_id point rows) = map d_id rows.
Proof.
  induction rows as [|d rows IH]; cbn; [reflexivity|].
  destruct (N.eqb (d_id d) driver_id); cbn; [reflexivity|now rewrite IH].
Qed.

Lemma assign_location_first (driver_id : UUID) (point : Geometry)
    (rows : list Driver) (d : Driver) :
  first (fun x => N.eqb (d_id x) driver_id) rows = Some d ->
  first (fun x => N.eqb (d_id x) driver_id)
    (assign_location driver_id point rows)
  = Some {| d_id := d_id d;
            d_vehicle_id := d_vehicle_id d;
            d_status := d_status d;
            d_location := Some point;
            d_is_active := d_is_active d |}.
Proof.
  unfold first. induction rows as [|a rows IH]; cbn; [discriminate|].
  destruct (N.eqb (d_id a) driver_id) eqn:E; cbn.
  - intro Ha. inversion Ha; subst. now rewrite E.
  - rewrite E. exact IH.
Qed.

Lemma assign_location_others (driver_id other : UUID) (point : Geometry)
    (rows : list Driver) :
  other <> driver_id ->
  filter (fun x => N.eqb (d_id x) other)
    (assign_location driver_id point rows)
  = filter (fun x => N.eqb (d_id x) other) rows.
Proof.
  intro Hne. induction rows as [|a rows IH]; cbn; [reflexivity|].
  destruct (N.eqb (d_id a) driver_id) eqn:E; cbn.
  - apply N.eqb_eq in E.
    assert (Ho : N.eqb (d_id a) other = false)
      by (apply N.eqb_neq; congruence).
    now rewrite Ho.
  - now rewrite IH.
Qed.

(** X8. [update_driver_location] on an unknown driver raises "Driver not
    found" and leaves the session as it was. On a known driver it returns,
    and afterwards the row found under the id is the same driver at the new
    location; the ids of the table, the rows of every other id, and the
    other tables are unchanged. *)
Theorem update_driver_location_round_trip (driver_id : UUID)
    (latitude longitude : Q) (db : Session) :
  let run := update_driver_location driver_id latitude longitude db in
  let found := first (fun d => N.eqb (d_id d) driver_id) (drivers db) in
  (found = None ->
     fst run = Raise (Exception "Driver not found") /\ snd run = db)
  /\ (forall d,
        found = Some d ->
        fst run = Return tt
        /\ first (fun x => N.eqb (d_id x) driver_id) (drivers (snd run))
           = Some {| d_id := d_id d;
                     d_vehicle_id := d_vehicle_id d;
                     d_status := d_status d;
                     d_location := Some (Point longitude latitude);
                     d_is_active := d_is_active d |}
        /\ map d_id (drivers (snd run)) = map d_id (drivers db)
        /\ (forall other,
              other <> driver_id ->
              filter (fun x => N.eqb (d_id x) other) (drivers (snd run))
              = filter (fun x => N.eqb (d_id x) other) (drivers db))
        /\ vehicles (snd run) = vehicles db
        /\ shipments (snd run) = shipments db
        /\ tracking_points (snd run) = tracking_points db).
Proof.
  intros run found. subst run found.
  unfold update_driver_location, bind, get, put, raise, from_shape_point.
  split.
  - intros ->. split; reflexivity.
  - intros d Hd. rewrite Hd. cbn [fst snd drivers vehicles shipments
                                   tracking_points].
    split; [reflexivity|]. split; [now apply assign_location_first|].
    split; [apply assign_location_ids|].
    split; [intros other Hne; now apply assign_location_others|].
    repeat split.
Qed.

(** The two location updates of the services,
    [tracking_service.update_driver_current_location] and
    [driver_service.update_driver_location], are the same operation. *)
Lemma location_updates_agree (driver_id : UUID) (latitude longitude : Q)
    (db : Session) :
  update_driver_current_location driver_id latitude longitude db
  = update_driver_location driver_id latitude longitude db.
Proof.
  reflexivity.
Qed.

End DriverLocation.

(** On the sample driver. *)
Lemma update_driver_location_round_trip_witness :
  first (fun d => N.eqb (d_id d) 1) (drivers Samples.ping_db)
  = Some (Samples.driver_at 1 None 0 0)
  /\ fst (DriverReports.update_driver_location 1 7 3 Samples.ping_db)
     = Return tt
  /\ first (fun d => N.eqb (d_id d) 9) (drivers Samples.ping_db) = None
  /\ snd (DriverReports.update_driver_location 9 7 3 Samples.ping_db)
     = Samples.ping_db.
Proof.
  assert (H1 : first (fun d => N.eqb (d_id d) 1) (drivers Samples.ping_db)
               = Some (Samples.driver_at 1 None 0 0)) by reflexivity.
  assert (H9 : first (fun d => N.eqb (d_id d) 9) (drivers Samples.ping_db)
               = None) by reflexivity.
  split; [exact H1|]. split; [|split; [exact H9|]].
  - exact (proj1 (proj2 (update_driver_location_round_trip 1 7 3
                           Samples.ping_db) _ H1)).
  - exact (proj2 (proj1 (update_driver_location_round_trip 9 7 3
                           Samples.ping_db) H9)).
Defined.

(** ** Workload and availability *)

Section WorkloadFurther.
Import DriverService.

Lemma filter_split_length {A : Type} (f a b : A -> bool) (l : list A) :
  (forall x, a x && b x = false) ->
  (List.length (filter (fun x => f x && a x) l)
   + List.length (filter (fun x => f x && b x) l))%nat
  = List.length (filter (fun x => f x && (a x || b x)) l).
Proof.
  intro Hex. induction l as [|x l IH]; [reflexivity|]. cbn [filter].
  specialize (Hex x).
  destruct (f x), (a x), (b x); cbn in *; try discriminate; lia.
Qed.

(** X11. The workload counts are consistent: [total_active] is the number of
    the driver's shipments that are assigned or in transit, the status band
    is free at 0, light up to 2, moderate up to 5 and heavy above, and
    [can_accept_more] holds exactly below 5, so a driver with exactly 5 active
    shipments is moderate yet cannot accept more. *)
Theorem workload_counts_are_consistent (driver_id : UUID) (db : Session) :
  let w := get_driver_active_workload driver_id db in
  total_active w
  = List.length
      (filter (fun s => driven_by driver_id s
                        && (ShipmentStatus_eqb (s_status s) ASSIGNED
                            || ShipmentStatus_eqb (s_status s) IN_TRANSIT))
         (shipments db))
  /\ total_active w = (assigned_shipments w + in_transit_shipments w)%nat
  /\ (can_accept_more w = true <-> (total_active w < 5)%nat)
  /\ (workload_status w = free <-> total_active w = 0%nat)
  /\ (workload_status w = light <-> (1 <= total_active w <= 2)%nat)
  /\ (workload_status w = moderate <-> (3 <= total_active w <= 5)%nat)
  /\ (workload_status w = heavy <-> (5 < total_active w)%nat).
Proof.
  intro w. subst w. unfold get_driver_active_workload.
  cbn [total_active assigned_shipments in_transit_shipments can_accept_more
       workload_status].
  set (a := List.length (filter (fun s => driven_by driver_id s
                  && ShipmentStatus_eqb (s_status s) ASSIGNED) (shipments db))).
  set (t := List.length (filter (fun s => driven_by driver_id s
                  && ShipmentStatus_eqb (s_status s) IN_TRANSIT) (shipments db))).
  split.
  - subst a t.
    apply (filter_split_length (driven_by driver_id)
             (fun s => ShipmentStatus_eqb (s_status s) ASSIGNED)
             (fun s => ShipmentStatus_eqb (s_status s) IN_TRANSIT)).
    intro s. now destruct (s_status s).
  - split; [reflexivity|]. split; [apply Nat.ltb_lt|].
    destruct (a + t =? 0)%nat eqn:E0.
    + apply Nat.eqb_eq in E0. repeat split; intros; try discriminate; lia.
    + apply Nat.eqb_neq in E0.
      destruct (a + t <=? 2)%nat eqn:E2.
      * apply Nat.leb_le in E2.
        repeat split; intros; try discriminate; lia.
      * apply Nat.leb_gt in E2.
        destruct (a + t <=? 5)%nat eqn:E5.
        -- apply Nat.leb_le in E5.
           repeat split; intros; try discriminate; lia.
        -- apply Nat.leb_gt in E5.
           repeat split; intros; try discriminate; lia.
Qed.

Ltac settle :=
  cbn; repeat split; intros;
  repeat match goal with
         | H : exists _, _ |- _ => destruct H
         | H : _ /\ _ |- _ => destruct H
         end;
  repeat match goal with
         | H : Some _ = Some _ |- _ => inversion H; clear H
         | H : MaximumWorkload _ = MaximumWorkload _ |- _ =>
             inversion H; clear H
         | H : VehicleCapacityInsufficient _ _
               = VehicleCapacityInsufficient _ _ |- _ =>
             inversion H; clear H
         end;
  subst;
  repeat match goal with
         | H : ?t = Some _, H' : ?t = Some _ |- _ =>
             rewrite H in H'; inversion H'; subst; clear H'
         | H : ?t = None, H' : ?t = Some _ |- _ =>
             rewrite H in H'; discriminate H'
         end;
  try discriminate; try congruence; try lia;
  try (exfalso; lra);
  eauto 12.

(** X12. The verdict of [check_driver_availability_for_shipment] names the
    first check that fails, in the order: driver not found, not active, off
    duty, workload at the cap, no vehicle assigned, vehicle too small; and
    the driver is available exactly when the reason says so. *)
Theorem availability_names_the_first_failing_check (driver_id : UUID)
    (weight_kg : Q) (db : Session) :
  let a := check_driver_availability_for_shipment driver_id weight_kg db in
  let found := first (fun d => N.eqb (d_id d) driver_id) (drivers db) in
  let load := total_active (get_driver_active_workload driver_id db) in
  (available a = true <-> reason a = DriverIsAvailable)
  /\ (reason a = DriverNotFound <-> found = None)
  /\ (reason a = DriverIsNotActive
      <-> exists d, found = Some d /\ d_is_active d = false)
  /\ (reason a = DriverIsOffDuty
      <-> exists d, found = Some d /\ d_is_active d = true
                    /\ d_status d = OFF_DUTY)
  /\ (forall n,
        reason a = MaximumWorkload n
        <-> exists d, found = Some d /\ d_is_active d = true
                      /\ d_status d <> OFF_DUTY
                      /\ n = load /\ (5 <= load)%nat)
  /\ (reason a = NoVehicleAssigned
      <-> exists d, found = Some d /\ d_is_active d = true
                    /\ d_status d <> OFF_DUTY /\ (load < 5)%nat
                    /\ d_vehicle_id d = None)
  /\ (forall capacity weight,
        reason a = VehicleCapacityInsufficient capacity weight
        <-> exists d vehicle_id v,
              found = Some d /\ d_is_active d = true
              /\ d_status d <> OFF_DUTY /\ (load < 5)%nat
              /\ d_vehicle_id d = Some vehicle_id
              /\ first (fun v => N.eqb (v_id v) vehicle_id) (vehicles db)
                 = Some v
              /\ capacity = v_capacity_kg v /\ weight = weight_kg
              /\ v_capacity_kg v < weight_kg).
Proof.
  intros a found load. subst a found load.
  unfold check_driver_availability_for_shipment.
  destruct (first (fun d => N.eqb (d_id d) driver_id) (drivers db))
    as [d|] eqn:Ed.
  2:{ settle. }
  destruct (d_is_active d) eqn:Ea; cbn [negb].
  2:{ settle. }
  destruct (DriverStatus_eqb (d_status d) OFF_DUTY) eqn:Es.
  { assert (Hoff : d_status d = OFF_DUTY)
      by (destruct (d_status d); [discriminate|discriminate|reflexivity]).
    settle. }
  assert (Hon : d_status d <> OFF_DUTY)
    by (intro Hc; rewrite Hc in Es; discriminate).
  cbn [can_accept_more get_driver_active_workload total_active].
  match goal with
  | |- context [(?n <? 5)%nat] => set (load := n) in *
  end.
  destruct (load <? 5)%nat eqn:El; cbn [negb].
  2:{ apply Nat.ltb_ge in El. settle. }
  apply Nat.ltb_lt in El.
  destruct (d_vehicle_id d) as [vid|] eqn:Ev.
  2:{ settle. }
  destruct (first (fun v => N.eqb (v_id v) vid) (vehicles db)) as [v|] eqn:Ef.
  2:{ settle. }
  destruct (Num.Qltb (v_capacity_kg v) weight_kg) eqn:Ec.
  - apply Qltb_lt in Ec. settle.
  - apply Qltb_ge in Ec. settle.
Qed.

(** X13. Availability never improves with weight: a driver available for a
    shipment is available for every lighter one. *)
Theorem availability_is_kept_for_lighter_shipments (driver_id : UUID)
    (weight_kg lighter_kg : Q) (db : Session) :
  lighter_kg <= weight_kg ->
  available (check_driver_availability_for_shipment driver_id weight_kg db)
  = true ->
  available (check_driver_availability_for_shipment driver_id lighter_kg db)
  = true.
Proof.
  intros Hw.
  destruct (first (fun d => N.eqb (d_id d) driver_id) (drivers db))
    as [d|] eqn:Ed.
  - rewrite !(check_availability_found _ _ _ d Ed).
    rewrite !andb_true_iff. intros [Hrest Hv]. split; [exact Hrest|].
    destruct (d_vehicle_id d) as [vid|]; [|discriminate].
    destruct (first (fun v => N.eqb (v_id v) vid) (vehicles db)) as [v|];
      [|reflexivity].
    apply Qle_bool_iff. apply Qle_bool_iff in Hv.
    eapply Qle_trans; eauto.
  - unfold check_driver_availability_for_shipment. rewrite Ed. discriminate.
Qed.

End WorkloadFurther.

(** The driver with a van of 800 kg: available at 500 kg, so at 100 kg. *)
Lemma availability_is_kept_for_lighter_shipments_witness :
  100 <= 500
  /\ DriverService.available
       (DriverService.check_driver_availability_for_shipment 2 500
          Samples.drivers_db) = true
  /\ DriverService.available
       (DriverService.check_driver_availability_for_shipment 2 100
          Samples.drivers_db) = true.
Proof.
  assert (Hw : 100 <= 500) by discriminate.
  assert (Ha : DriverService.available
                 (DriverService.check_driver_availability_for_shipment 2 500
                    Samples.drivers_db) = true) by reflexivity.
  split; [exact Hw|]. split; [exact Ha|].
  exact (availability_is_kept_for_lighter_shipments 2 500 100
           Samples.drivers_db Hw Ha).
Defined.

(** ** Vehicles *)

Section VehiclesFurther.
Import DriverService VehicleService VehicleSpec VehicleReports.

(** X15. The vehicle [get_optimal_vehicle_for_shipment] returns is always a
    row of the table that is available, active and of capacity at least the
    weight; it returns none exactly when the table has no such row. *)
Theorem optimal_vehicle_can_carry_the_weight (weight_kg distance_km : Q)
    (db : Session) :
  let r := get_optimal_vehicle_for_shipment weight_kg distance_km db in
  (forall v,
      r = Some v ->
      In v (vehicles db)
      /\ v_status v = V_AVAILABLE
      /\ v_is_active v = true
      /\ weight_kg <= v_capacity_kg v)
  /\ (r = None
      <-> forall v,
            In v (vehicles db) -> v_status v = V_AVAILABLE ->
            v_is_active v = true -> v_capacity_kg v < weight_kg).
Proof.
  intro r.
  assert (Hr : r = first_of_class_or_first (preferred weight_kg distance_km)
                     (filter (suitable weight_kg) (vehicles db)))
    by apply get_optimal_vehicle_preferred.
  assert (Hs : forall v,
             In v (filter (suitable weight_kg) (vehicles db))
             <-> In v (vehicles db)
                 /\ v_status v = V_AVAILABLE
                 /\ v_is_active v = true
                 /\ weight_kg <= v_capacity_kg v).
  { intro v. rewrite filter_In. unfold suitable.
    rewrite !andb_true_iff, Qgeb_le. split.
    - intros (Hin & (Hst & Ha) & Hc). repeat split; auto.
      now destruct (v_status v).
    - intros (Hin & Hst & Ha & Hc). rewrite Hst. repeat split; auto. }
  assert (Hin : forall v, r = Some v ->
             In v (filter (suitable weight_kg) (vehicles db))).
  { intros v Hv. rewrite Hr in Hv. unfold first_of_class_or_first in Hv.
    destruct (find _ _) as [u|] eqn:Ef.
    - inversion Hv; subst. now apply find_some in Ef.
    - now apply nth_error_In in Hv. }
  split.
  - intros v Hv. now apply Hs, Hin.
  - split.
    + intros Hnone v Hv Hst Ha. apply Qnot_le_lt. intro Hc.
      assert (Hcand : In v (filter (suitable weight_kg) (vehicles db)))
        by (apply Hs; auto).
      rewrite Hr in Hnone. unfold first_of_class_or_first in Hnone.
      destruct (find _ _); [discriminate|].
      destruct (filter (suitable weight_kg) (vehicles db));
        [contradiction|discriminate].
    + intro Hall. destruct r as [v|] eqn:Ev; [|reflexivity].
      destruct (proj1 (Hs v) (Hin v eq_refl)) as (Hv & Hst & Ha & Hc).
      specialize (Hall v Hv Hst Ha). exfalso. lra.
Qed.

(** X16. [check_vehicle_availability] reports a vehicle available exactly
    when its row exists, is active and has status available, and the first
    driver row naming the vehicle, if there is one, has no assigned or
    in-transit shipment; drivers after the first that name the vehicle are
    not looked at. *)
Theorem vehicle_availability_looks_at_the_first_driver (vehicle_id : UUID)
    (db : Session) :
  va_available (check_vehicle_availability vehicle_id db) = true
  <-> exists v,
        first (fun v => N.eqb (v_id v) vehicle_id) (vehicles db) = Some v
        /\ v_is_active v = true
        /\ v_status v = V_AVAILABLE
        /\ forall d,
             first_driver_of vehicle_id db = Some d ->
             total_active (get_driver_active_workload (d_id d) db) = 0%nat.
Proof.
  unfold check_vehicle_availability, first_driver_of.
  destruct (first (fun v => N.eqb (v_id v) vehicle_id) (vehicles db))
    as [v|]; [|split; [discriminate|intros (v & Hv & _); discriminate]].
  destruct (v_is_active v) eqn:Ea; cbn [negb].
  2:{ split; [discriminate|].
      intros (v' & Hv & Ha & _). inversion Hv; subst. congruence. }
  destruct (VehicleStatus_eqb (v_status v) V_AVAILABLE) eqn:Es; cbn [negb].
  2:{ split; [discriminate|].
      intros (v' & Hv & _ & Hst & _). inversion Hv; subst.
      rewrite Hst in Es. discriminate. }
  assert (Hst : v_status v = V_AVAILABLE) by now destruct (v_status v).
  destruct (first _ (drivers db)) as [d|].
  - assert (Hload :
      List.length
        (filter (fun s => driven_by (d_id d) s
                          && (ShipmentStatus_eqb (s_status s) IN_TRANSIT
                              || ShipmentStatus_eqb (s_status s) ASSIGNED))
           (shipments db))
      = total_active (get_driver_active_workload (d_id d) db)).
    { unfold get_driver_active_workload. cbn [total_active].
      rewrite (filter_split_length (driven_by (d_id d))
                 (fun s => ShipmentStatus_eqb (s_status s) ASSIGNED)
                 (fun s => ShipmentStatus_eqb (s_status s) IN_TRANSIT))
        by (intro s; now destruct (s_status s)).
      f_equal. apply filter_ext. intro s. now rewrite (orb_comm (_ _ ASSIGNED)). }
    rewrite Hload.
    destruct (0 <? total_active (get_driver_active_workload (d_id d) db))%nat
      eqn:E; cbn [va_available].
    + apply Nat.ltb_lt in E. split; [discriminate|].
      intros (v' & _ & _ & _ & Hd). specialize (Hd d eq_refl). lia.
    + apply Nat.ltb_ge in E. split; [|reflexivity]. intros _.
      exists v. repeat split; auto. intros d' Hd'. inversion Hd'; subst. lia.
  - cbn [va_available]. split; [|reflexivity]. intros _.
    exists v. repeat split; auto. discriminate.
Qed.

End VehiclesFurther.

(** A van alone, at 8 kg. *)
Lemma optimal_vehicle_can_carry_the_weight_witness :
  VehicleService.get_optimal_vehicle_for_shipment 8 3 Samples.van_db
  = Some Samples.van
  /\ 8 <= v_capacity_kg Samples.van.
Proof.
  assert (Hr : VehicleService.get_optimal_vehicle_for_shipment 8 3
                 Samples.van_db = Some Samples.van) by reflexivity.
  split; [exact Hr|].
  exact (proj2 (proj2 (proj2
           (proj1 (optimal_vehicle_can_carry_the_weight 8 3 Samples.van_db)
              Samples.van Hr)))).
Defined.

(** ** Vehicle and driver scores *)

Section Scores.
Import DriverService DriverReports VehicleReports.

Lemma of_nat_nonneg (n : nat) : 0 <= of_nat n.
Proof. unfold of_nat, Qle, inject_Z. cbn. lia. Qed.

Lemma of_nat_le (n m : nat) : (n <= m)%nat -> of_nat n <= of_nat m.
Proof. intro Hnm. unfold of_nat. rewrite <- Zle_Qle. lia. Qed.

Lemma Qmin_le_l (a b : Q) : Num.Qmin a b <= a.
Proof. destruct (Qmin_cases a b) as (_ & Ha & _). exact Ha. Qed.

Lemma Qmin_le_r (a b : Q) : Num.Qmin a b <= b.
Proof. destruct (Qmin_cases a b) as (_ & _ & Hb). exact Hb. Qed.

Lemma Qmin_glb (a b c : Q) : c <= a -> c <= b -> c <= Num.Qmin a b.
Proof.
  intros Ha Hb. destruct (Qmin_cases a b) as ([-> | ->] & _); assumption.
Qed.

(** X17. [get_vehicle_utilization_rate] lies between 0 and 100. It is 0 for
    an unknown vehicle or one without deliveries, and 100 as soon as the
    drivers of the vehicle have 30 deliveries. *)
Theorem utilization_is_a_percentage (vehicle_id : UUID) (db : Session) :
  let rate := get_vehicle_utilization_rate vehicle_id db in
  let deliveries := List.length (shipments_of_vehicle vehicle_id db) in
  0 <= rate /\ rate <= 100
  /\ (first (fun v => N.eqb (v_id v) vehicle_id) (vehicles db) = None ->
      rate = 0)
  /\ (deliveries = 0%nat -> rate = 0)
  /\ (forall v,
        first (fun v => N.eqb (v_id v) vehicle_id) (vehicles db) = Some v ->
        (30 <= deliveries)%nat -> rate = 100)
  /\ (forall v,
        first (fun v => N.eqb (v_id v) vehicle_id) (vehicles db) = Some v ->
        (0 < deliveries < 30)%nat ->
        rate = of_nat deliveries / 30 * 100 /\ 0 < rate /\ rate < 100).
Proof.
  intros rate deliveries. subst rate. unfold get_vehicle_utilization_rate.
  fold deliveries.
  assert (Hscale : forall n, of_nat n / 30 * 100 == of_nat n * (10 # 3)).
  { intro n. unfold Qdiv. change (/ 30) with (1 # 30). ring. }
  destruct (first (fun v => N.eqb (v_id v) vehicle_id) (vehicles db)) as [v|].
  2:{ repeat split; try discriminate; intros; try discriminate;
        try apply Qle_refl. }
  destruct (deliveries =? 0)%nat eqn:E0.
  { apply Nat.eqb_eq in E0.
    repeat split; try discriminate; intros; try lia; try apply Qle_refl. }
  apply Nat.eqb_neq in E0.
  pose proof (of_nat_nonneg deliveries) as Hn.
  assert (H1 : 1 <= of_nat deliveries)
    by (change 1 with (of_nat 1); apply of_nat_le; lia).
  split; [apply Qmin_glb; [discriminate|rewrite Hscale; lra]|].
  split; [apply Qmin_le_l|].
  split; [discriminate|]. split; [intro; lia|]. split.
  - intros _ _ H30.
    assert (Hd : 30 <= of_nat deliveries)
      by (change 30 with (of_nat 30); now apply of_nat_le).
    unfold Num.Qmin.
    assert (E : Num.Qltb (of_nat deliveries / 30 * 100) 100 = false)
      by (apply Qltb_ge; rewrite Hscale; lra).
    now rewrite E.
  - intros _ _ [_ H30].
    assert (Hd : of_nat deliveries <= 29)
      by (change 29 with (of_nat 29); apply of_nat_le; lia).
    unfold Num.Qmin.
    assert (E : Num.Qltb (of_nat deliveries / 30 * 100) 100 = true)
      by (apply Qltb_lt; rewrite Hscale; lra).
    rewrite E. split; [reflexivity|]. rewrite Hscale. split; lra.
Qed.

(** X18. For a known vehicle the maintenance status is fixed by the distance
    covered against the interval of the vehicle type (3000 km for a
    motorcycle, 5000 for a van, 8000 for a truck, 6000 for a pickup): urgent
    from 90 % of the interval, soon from 70 %, watch from 50 %, good below.
    The score returned never exceeds 100; an unknown vehicle scores 0 with
    status unknown. *)
Theorem maintenance_status_follows_the_interval (vehicle_id : UUID)
    (db : Session) :
  let m := calculate_vehicle_maintenance_score vehicle_id db in
  let total_km :=
    Num.sum (map (fun sd => or_zero (s_estimated_distance_km (fst sd)))
               (shipments_of_vehicle vehicle_id db)) in
  m_score m <= 100
  /\ (first (fun v => N.eqb (v_id v) vehicle_id) (vehicles db) = None ->
      m_score m = 0 /\ m_status m = m_unknown)
  /\ (forall v,
        first (fun v => N.eqb (v_id v) vehicle_id) (vehicles db) = Some v ->
        let interval := maintenance_interval (v_vehicle_type v) in
        next_maintenance_km m = Some interval
        /\ (m_status m = urgent <-> (9 # 10) * interval <= total_km)
        /\ (m_status m = soon
            <-> (7 # 10) * interval <= total_km
                /\ total_km < (9 # 10) * interval)
        /\ (m_status m = watch
            <-> (5 # 10) * interval <= total_km
                /\ total_km < (7 # 10) * interval)
        /\ (m_status m = m_good <-> total_km < (5 # 10) * interval)
        /\ (0 <= total_km -> 0 <= m_score m)).
Proof.
  intros m total_km. subst m. unfold calculate_vehicle_maintenance_score.
  rewrite map_map. fold total_km.
  destruct (first (fun v => N.eqb (v_id v) vehicle_id) (vehicles db)) as [v|].
  2:{ cbn. repeat split; try discriminate. }
  cbn [m_score m_status next_maintenance_km].
  set (interval := maintenance_interval (v_vehicle_type v)).
  assert (Hi : 0 < interval) by (subst interval; destruct (v_vehicle_type v);
                                 reflexivity).
  set (ratio := total_km / interval * 100).
  assert (Hratio : forall c, c <= ratio <-> (c / 100) * interval <= total_km).
  { intro c. subst ratio. split; intro Hc.
    - assert (Hx : c / 100 <= total_km / interval).
      { apply Qle_shift_div_r; [reflexivity|]. exact Hc. }
      apply (Qmult_le_compat_r _ _ interval) in Hx; [|now apply Qlt_le_weak].
      assert (E : total_km / interval * interval == total_km)
        by (field; intro Hz; rewrite Hz in Hi; discriminate).
      now rewrite E in Hx.
    - assert (Hx : c / 100 <= total_km / interval).
      { apply Qle_shift_div_l; [exact Hi|]. exact Hc. }
      apply (Qmult_le_compat_r _ _ 100) in Hx; [|discriminate].
      assert (E : c / 100 * 100 == c) by field.
      now rewrite E in Hx. }
  assert (Hmin : forall c, c <= 100 ->
             (Num.Qgeb (Num.Qmin 100 ratio) c = true <-> c <= ratio)).
  { intros c Hc. rewrite Qgeb_le. split; intro Hx.
    - eapply Qle_trans; [exact Hx|apply Qmin_le_r].
    - now apply Qmin_glb. }
  assert (H90 := Hmin 90 ltac:(discriminate)).
  assert (H70 := Hmin 70 ltac:(discriminate)).
  assert (H50 := Hmin 50 ltac:(discriminate)).
  rewrite Hratio in H90, H70, H50.
  assert (E7 : 70 / 100 * interval == (7 # 10) * interval) by field.
  assert (E9 : 90 / 100 * interval == (9 # 10) * interval) by field.
  assert (E5 : 50 / 100 * interval == (5 # 10) * interval) by field.
  rewrite E9 in H90. rewrite E7 in H70. rewrite E5 in H50.
  split.
  { change 100 with (inject_Z 100) at 2. apply round_le_Z. apply Qmin_le_l. }
  split; [discriminate|].
  intros v' Hv'. inversion Hv'; subst v'. cbv zeta. fold interval.
  split; [reflexivity|].
  destruct (Num.Qgeb (Num.Qmin 100 ratio) 90) eqn:G90.
  { pose proof (proj1 H90 eq_refl) as K90.
    repeat split; intros; try discriminate; try reflexivity; try assumption;
      try (exfalso; repeat match goal with H : _ /\ _ |- _ => destruct H end;
           lra).
    apply round_nonneg. apply Qmin_glb; [discriminate|].
    apply (proj2 (Hratio 0)).
    assert (E0 : 0 / 100 * interval == 0) by field. now rewrite E0. }
  assert (N90 : total_km < (9 # 10) * interval).
  { apply Qnot_le_lt. intro Hc. apply H90 in Hc. discriminate. }
  destruct (Num.Qgeb (Num.Qmin 100 ratio) 70) eqn:G70.
  { pose proof (proj1 H70 eq_refl) as K70.
    repeat split; intros; try discriminate; try reflexivity; try assumption;
      try (exfalso; repeat match goal with H : _ /\ _ |- _ => destruct H end;
           lra).
    apply round_nonneg. apply Qmin_glb; [discriminate|].
    apply (proj2 (Hratio 0)).
    assert (E0 : 0 / 100 * interval == 0) by field. now rewrite E0. }
  assert (N70 : total_km < (7 # 10) * interval).
  { apply Qnot_le_lt. intro Hc. apply H70 in Hc. discriminate. }
  destruct (Num.Qgeb (Num.Qmin 100 ratio) 50) eqn:G50.
  { pose proof (proj1 H50 eq_refl) as K50.
    repeat split; intros; try discriminate; try reflexivity; try assumption;
      try (exfalso; repeat match goal with H : _ /\ _ |- _ => destruct H end;
           lra).
    apply round_nonneg. apply Qmin_glb; [discriminate|].
    apply (proj2 (Hratio 0)).
    assert (E0 : 0 / 100 * interval == 0) by field. now rewrite E0. }
  assert (N50 : total_km < (5 # 10) * interval).
  { apply Qnot_le_lt. intro Hc. apply H50 in Hc. discriminate. }
  repeat split; intros; try discriminate; try reflexivity; try assumption;
    try (exfalso; repeat match goal with H : _ /\ _ |- _ => destruct H end;
         lra).
  apply round_nonneg. apply Qmin_glb; [discriminate|].
  apply (proj2 (Hratio 0)).
  assert (E0 : 0 / 100 * interval == 0) by field. now rewrite E0.
Qed.

End Scores.

Section EfficiencyScore.
Import DriverService DriverReports.

Lemma filter_and_length_le {A : Type} (f g : A -> bool) (l : list A) :
  (List.length (filter (fun x => f x && g x) l)
   <= List.length (filter f l))%nat.
Proof.
  induction l as [|a l IH]; cbn; [lia|].
  destruct (f a), (g a); cbn; lia.
Qed.

(** X19. The efficiency score of a driver always lies between 0 and 110: 70
    points at most for the completion rate and 40 at most for the number of
    deliveries. It is 0 for an unknown driver and for a driver without
    shipments, and it reaches 110, rated 5 and excellent, when the driver has
    at least 10 shipments and all of them are delivered. *)
Theorem efficiency_score_range (driver_id : UUID) (db : Session) :
  let e := calculate_driver_efficiency_score driver_id db in
  let found := first (fun d => N.eqb (d_id d) driver_id) (drivers db) in
  let total := List.length (filter (driven_by driver_id) (shipments db)) in
  let completed :=
    List.length
      (filter (fun s => driven_by driver_id s
                        && ShipmentStatus_eqb (s_status s) DELIVERED)
         (shipments db)) in
  0 <= score e /\ score e <= 110
  /\ (found = None -> score e = 0 /\ eff_status e = unknown)
  /\ (found <> None -> total = 0%nat ->
      score e = 0 /\ eff_status e = no_data)
  /\ (found <> None -> (10 <= completed)%nat -> completed = total ->
      score e == 110 /\ eff_status e = excellent /\ rating e = Some 5%nat).
Proof.
  intros e found total completed. subst e found.
  unfold calculate_driver_efficiency_score.
  destruct (first (fun d => N.eqb (d_id d) driver_id) (drivers db))
    as [d|] eqn:Ed.
  2:{ cbn. split; [apply Qle_refl|]. split; [discriminate|].
      split; [auto|]. split; intros Hc; exfalso; now apply Hc. }
  assert (Hid : d_id d = driver_id).
  { unfold first in Ed. apply find_some in Ed. now apply N.eqb_eq. }
  rewrite Hid. fold total completed.
  destruct (total =? 0)%nat eqn:E0.
  { apply Nat.eqb_eq in E0. cbn.
    assert (Hc0 : completed = 0%nat).
    { pose proof (filter_and_length_le (driven_by driver_id)
                    (fun s => ShipmentStatus_eqb (s_status s) DELIVERED)
                    (shipments db)). fold total completed in H. lia. }
    split; [apply Qle_refl|]. split; [discriminate|].
    split; [discriminate|]. split; [auto|]. intros _ H10 _. lia. }
  apply Nat.eqb_neq in E0.
  assert (Hpos : (0 <? total)%nat = true) by (apply Nat.ltb_lt; lia).
  rewrite Hpos.
  assert (Hct : (completed <= total)%nat).
  { apply (filter_and_length_le (driven_by driver_id)
             (fun s => ShipmentStatus_eqb (s_status s) DELIVERED)). }
  set (rate := of_nat completed / of_nat total * 100).
  set (volume := Num.Qmin 40 (of_nat completed / 10 * 40)).
  assert (Ht : 0 < of_nat total).
  { unfold of_nat, Qlt, inject_Z. cbn. lia. }
  pose proof (of_nat_nonneg completed) as Hc.
  pose proof (of_nat_le _ _ Hct) as Hle.
  assert (Hfrac0 : 0 <= of_nat completed / of_nat total).
  { apply Qle_shift_div_l; [exact Ht|]. now rewrite Qmult_0_l. }
  assert (Hfrac1 : of_nat completed / of_nat total <= 1).
  { apply Qle_shift_div_r; [exact Ht|]. now rewrite Qmult_1_l. }
  assert (Hrate : 0 <= rate /\ rate <= 100) by (subst rate; split; lra).
  assert (Hvol : 0 <= volume /\ volume <= 40).
  { subst volume. split; [|apply Qmin_le_l].
    apply Qmin_glb; [discriminate|].
    assert (E : of_nat completed / 10 * 40 == of_nat completed * 4)
      by (unfold Qdiv; change (/ 10) with (1 # 10); ring).
    rewrite E. lra. }
  set (eff := rate * (7 # 10) + volume).
  assert (Heff : 0 <= eff /\ eff <= 110) by (subst eff; split; lra).
  assert (Hscore : forall st,
            score (let '(status, rating) := st in
                   {| score := Num.round eff 2;
                      eff_status := status;
                      rating := Some rating;
                      total_deliveries := Some total;
                      completed_deliveries := Some completed;
                      cancelled_deliveries :=
                        Some (List.length
                                (filter (fun s => driven_by driver_id s
                                   && ShipmentStatus_eqb (s_status s) CANCELLED)
                                   (shipments db)));
                      completion_rate := Some (Num.round rate 2);
                      total_distance_km :=
                        Some (Num.round
                                (Num.sum
                                   (map or_zero
                                      (map s_estimated_distance_km
                                         (filter (fun s => driven_by driver_id s
                                            && ShipmentStatus_eqb (s_status s)
                                                 DELIVERED)
                                            (shipments db))))) 2);
                      average_distance_per_delivery :=
                        Some (if (0 <? completed)%nat
                              then Num.round
                                     (Num.sum
                                        (map or_zero
                                           (map s_estimated_distance_km
                                              (filter
                                                 (fun s => driven_by driver_id s
                                                    && ShipmentStatus_eqb
                                                         (s_status s) DELIVERED)
                                                 (shipments db))))
                                      / of_nat completed) 2
                              else 0) |})
            = Num.round eff 2).
  { intros [st rt]. reflexivity. }
  split; [rewrite Hscore; now apply round_nonneg|].
  split; [rewrite Hscore; change 110 with (inject_Z 110);
          now apply round_le_Z|].
  split; [discriminate|]. split; [intros _ Hz; contradiction|].
  intros _ H10 Hall.
  assert (E110 : eff == 110).
  { subst eff rate volume. rewrite Hall.
    assert (Hd : 10 <= of_nat total)
      by (change 10 with (of_nat 10); apply of_nat_le; lia).
    assert (E1 : of_nat total / of_nat total * 100 == 100)
      by (field; intro Hz; rewrite Hz in Ht; discriminate).
    assert (E2 : Num.Qmin 40 (of_nat total / 10 * 40) = 40).
    { unfold Num.Qmin.
      assert (F : Num.Qltb (of_nat total / 10 * 40) 40 = false).
      { apply Qltb_ge.
        assert (E : of_nat total / 10 * 40 == of_nat total * 4)
          by (unfold Qdiv; change (/ 10) with (1 # 10); ring).
        rewrite E. lra. }
      now rewrite F. }
    rewrite E1, E2. reflexivity. }
  assert (G80 : Num.Qgeb eff 80 = true)
    by (apply Qgeb_le; rewrite E110; discriminate).
  rewrite G80. cbn [score eff_status rating].
  split; [|split; reflexivity].
  rewrite (round_comp _ _ 2 E110). exact (round_Z 110 2).
Qed.

End EfficiencyScore.

(** Ten delivered shipments out of ten. *)
Lemma efficiency_score_range_witness :
  first (fun d => N.eqb (d_id d) 1) (drivers MoreSamples.busy_db) <> None
  /\ DriverReports.score
       (DriverReports.calculate_driver_efficiency_score 1 MoreSamples.busy_db)
     == 110.
Proof.
  assert (Hf : first (fun d => N.eqb (d_id d) 1) (drivers MoreSamples.busy_db)
               <> None) by discriminate.
  split; [exact Hf|].
  apply (proj2 (proj2 (proj2 (proj2
           (efficiency_score_range 1 MoreSamples.busy_db)))) Hf).
  - cbn. lia.
  - reflexivity.
Defined.

(** ** Pricing *)

Section Pricing.
Import ShipmentsPricing.

Lemma distance_cost_mono (d1 d2 : Q) :
  d1 <= d2 -> distance_cost d1 <= distance_cost d2.
Proof.
  intro Hd. unfold distance_cost.
  destruct (Qle_bool d1 10) eqn:A1; destruct (Qle_bool d2 10) eqn:A2;
    destruct (Qle_bool d1 50) eqn:B1; destruct (Qle_bool d2 50) eqn:B2;
    repeat match goal with
           | H : Qle_bool _ _ = true |- _ => apply Qle_bool_iff in H
           | H : Qle_bool ?a ?b = false |- _ =>
               assert (b < a)
                 by (apply Qnot_le_lt; intro Hc; apply Qle_bool_iff in Hc;
                     congruence);
               clear H
           end; lra.
Qed.

Lemma weight_surcharge_mono (w1 w2 : Q) :
  w1 <= w2 -> weight_surcharge w1 <= weight_surcharge w2.
Proof.
  intro Hw. unfold weight_surcharge.
  assert (E : forall w, (w - 20) / 10 * 20 == (w - 20) * 2)
    by (intro w; unfold Qdiv; change (/ 10) with (1 # 10); ring).
  destruct (Num.Qgtb w1 20) eqn:A1; destruct (Num.Qgtb w2 20) eqn:A2;
    cbv zeta; rewrite ?E;
    repeat match goal with
           | H : Num.Qgtb _ _ = true |- _ => apply Qgtb_lt in H
           | H : Num.Qgtb _ _ = false |- _ => apply Qltb_ge in H
           end; lra.
Qed.

Lemma weight_surcharge_nonneg (w : Q) : 0 <= weight_surcharge w.
Proof.
  unfold weight_surcharge. destruct (Num.Qgtb w 20) eqn:A; [|apply Qle_refl].
  apply Qgtb_lt in A. cbv zeta.
  assert (E : (w - 20) / 10 * 20 == (w - 20) * 2)
    by (unfold Qdiv; change (/ 10) with (1 # 10); ring).
  rewrite E. lra.
Qed.

Lemma vehicle_multiplier_ge_1 (key : string) : 1 <= vehicle_multiplier key.
Proof.
  unfold vehicle_multiplier.
  repeat match goal with
         | |- context [String.eqb ?a ?b] => destruct (String.eqb a b)
         end; discriminate.
Qed.

Lemma lower_ascii_idempotent (c : Ascii.ascii) :
  lower_ascii (lower_ascii c) = lower_ascii c.
Proof.
  destruct c as [[] [] [] [] [] [] [] []]; reflexivity.
Qed.

Lemma lower_idempotent (s : string) : lower (lower s) = lower s.
Proof.
  induction s as [|c s IH]; cbn; [reflexivity|].
  now rewrite lower_ascii_idempotent, IH.
Qed.

(** X20. Without a vehicle type (none, or the empty string) the delivery
    cost never decreases when the distance or the weight grows and, for a
    distance that is not negative, is at least the base fare of 200. With
    any other vehicle type the function raises [TypeError]: the subtotal is
    a [Decimal] and the multiplier a [float]. *)
Theorem delivery_cost_grows_with_distance_and_weight (d1 d2 w1 w2 : Q) :
  d1 <= d2 -> w1 <= w2 ->
  (exists c1 c2,
     calculate_delivery_cost d1 w1 None = Return c1
     /\ calculate_delivery_cost d2 w2 None = Return c2
     /\ c1 <= c2
     /\ (0 <= d1 -> 200 <= c1))
  /\ calculate_delivery_cost d1 w1 (Some ""%string)
     = calculate_delivery_cost d1 w1 None
  /\ (forall c s,
        exists msg,
          calculate_delivery_cost d1 w1 (Some (String c s))
          = Raise (TypeError msg)).
Proof.
  intros Hd Hw.
  pose proof (distance_cost_mono d1 d2 Hd) as Hdc.
  pose proof (weight_surcharge_mono w1 w2 Hw) as Hwc.
  pose proof (weight_surcharge_nonneg w1) as Hw0.
  assert (Hd0 : 0 <= d1 -> 0 <= distance_cost d1).
  { intro H0. change 0 with (distance_cost 0) at 1.
    now apply distance_cost_mono. }
  split; [|split].
  - unfold calculate_delivery_cost. cbn [and_then].
    eexists. eexists. split; [reflexivity|]. split; [reflexivity|].
    split.
    + apply round_mono. lra.
    + intro H0. specialize (Hd0 H0).
      apply (round_ge_Z _ 200). change (inject_Z 200) with 200. lra.
  - reflexivity.
  - intros c s. eexists. reflexivity.
Qed.

(** X21. The estimated delivery time never decreases with the distance and,
    for a distance that is not negative, is at least the 30 minutes of
    buffer. *)
Theorem delivery_time_includes_the_buffer (d1 d2 : Q) :
  d1 <= d2 ->
  estimate_delivery_time d1 <= estimate_delivery_time d2
  /\ (0 <= d1 -> 30 <= estimate_delivery_time d1).
Proof.
  intro Hd. unfold estimate_delivery_time.
  assert (E : forall d, d / 40 * 60 + 30 == d * (3 # 2) + 30)
    by (intro d; unfold Qdiv; change (/ 40) with (1 # 40); ring).
  split.
  - apply round_mono. rewrite !E. lra.
  - intro H0. apply (round_ge_Z _ 30). rewrite E.
    change (inject_Z 30) with 30. lra.
Qed.

End Pricing.

(** 5 km against 12 km, 10 kg against 30 kg, without a vehicle type. *)
Lemma delivery_cost_grows_with_distance_and_weight_witness :
  5 <= 12 /\ 10 <= 30
  /\ exists c1 c2,
       ShipmentsPricing.calculate_delivery_cost 5 10 None = Return c1
       /\ ShipmentsPricing.calculate_delivery_cost 12 30 None = Return c2
       /\ c1 <= c2
       /\ (0 <= 5 -> 200 <= c1).
Proof.
  assert (Hd : 5 <= 12) by discriminate.
  assert (Hw : 10 <= 30) by discriminate.
  split; [exact Hd|]. split; [exact Hw|].
  exact (proj1 (delivery_cost_grows_with_distance_and_weight 5 12 10 30
                  Hd Hw)).
Defined.


(** 5 km against 12 km. *)
Lemma delivery_time_includes_the_buffer_witness :
  5 <= 12
  /\ ShipmentsPricing.estimate_delivery_time 5
     <= ShipmentsPricing.estimate_delivery_time 12.
Proof.
  assert (Hd : 5 <= 12) by discriminate.
  split; [exact Hd|].
  exact (proj1 (delivery_time_includes_the_buffer 5 12 Hd)).
Defined.

(** The van of the sample driver, with ten deliveries. *)
Lemma utilization_is_a_percentage_witness :
  first (fun v => N.eqb (v_id v) 1) (vehicles MoreSamples.busy_db)
  = Some (Samples.vehicle 1 VAN 800)
  /\ (0 < List.length
            (VehicleReports.shipments_of_vehicle 1 MoreSamples.busy_db)
      < 30)%nat
  /\ VehicleReports.get_vehicle_utilization_rate 1 MoreSamples.busy_db < 100.
Proof.
  assert (Hv : first (fun v => N.eqb (v_id v) 1) (vehicles MoreSamples.busy_db)
               = Some (Samples.vehicle 1 VAN 800)) by reflexivity.
  assert (Hn : (0 < List.length
                       (VehicleReports.shipments_of_vehicle 1
                          MoreSamples.busy_db) < 30)%nat) by (cbn; lia).
  split; [exact Hv|]. split; [exact Hn|].
  exact (proj2 (proj2 (proj2 (proj2 (proj2 (proj2 (proj2
           (utilization_is_a_percentage 1 MoreSamples.busy_db)))))
           _ Hv Hn))).
Defined.

(** The van of the sample driver, after 1000 km. *)
Lemma maintenance_status_follows_the_interval_witness :
  first (fun v => N.eqb (v_id v) 1) (vehicles MoreSamples.busy_db)
  = Some (Samples.vehicle 1 VAN 800)
  /\ VehicleReports.next_maintenance_km
       (VehicleReports.calculate_vehicle_maintenance_score 1
          MoreSamples.busy_db)
     = Some 5000.
Proof.
  assert (Hv : first (fun v => N.eqb (v_id v) 1) (vehicles MoreSamples.busy_db)
               = Some (Samples.vehicle 1 VAN 800)) by reflexivity.
  split; [exact Hv|].
  exact (proj1 (proj2 (proj2
           (maintenance_status_follows_the_interval 1 MoreSamples.busy_db))
           _ Hv)).
Defined.

(** ** Distances as they are reported *)

(** Rounding half up moves a number by at most one half. *)
Lemma round_half_up_near (s : Q) :
  inject_Z (Num.round_half_up s) - (1 # 2) <= s
  /\ s <= inject_Z (Num.round_half_up s) + (1 # 2).
Proof.
  unfold Num.round_half_up.
  destruct (Qle_bool 0 s).
  - pose proof (Qfloor_le (s + (1 # 2))) as Hlo.
    pose proof (Qlt_floor (s + (1 # 2))) as Hhi.
    rewrite inject_Z_plus in Hhi. change (inject_Z 1) with 1 in Hhi.
    split; lra.
  - pose proof (Qfloor_le (- s + (1 # 2))) as Hlo.
    pose proof (Qlt_floor (- s + (1 # 2))) as Hhi.
    rewrite inject_Z_plus in Hhi. change (inject_Z 1) with 1 in Hhi.
    rewrite inject_Z_opp.
    split; lra.
Qed.

Section ReportedDistances.
Import ShipmentsService TrackingService.
Context `{PostGIS}.

(** X23. [calculate_distance_km] returns a whole number of hundredths of a
    kilometer, at most half a hundredth away from the database distance
    between the point (origin_lng, origin_lat) and the point
    (dest_lng, dest_lat) divided by 1000, and not negative when that
    distance is not negative. *)
Theorem distance_km_is_exact_to_the_cent
    (origin_lat origin_lng dest_lat dest_lng : Q) :
  let exact :=
    ST_Distance (Point origin_lng origin_lat) (Point dest_lng dest_lat)
    / 1000 in
  let km := calculate_distance_km origin_lat origin_lng dest_lat dest_lng in
  (exists cents : Z, km == inject_Z cents / 100)
  /\ exact - (1 # 200) <= km
  /\ km <= exact + (1 # 200)
  /\ (0 <= exact -> 0 <= km).
Proof.
  intros exact km. subst km. unfold calculate_distance_km.
  fold exact.
  split; [|split; [|split]].
  - eexists. unfold Num.quantize_cents_half_up. reflexivity.
  - unfold Num.quantize_cents_half_up.
    pose proof (round_half_up_near (exact * 100)) as [_ Hhi].
    apply Qle_shift_div_l; [reflexivity|]. lra.
  - unfold Num.quantize_cents_half_up.
    pose proof (round_half_up_near (exact * 100)) as [Hlo _].
    apply Qle_shift_div_r; [reflexivity|]. lra.
  - apply quantize_nonneg.
Qed.

End ReportedDistances.
